(** * pvanalytics.quality.gaps: stale-value and interpolation detectors

    A shallow embedding of [pvanalytics/quality/gaps.py] together with the
    fragment of numpy and pandas the three detectors call.

    Numbers.  A float is a [value]: a finite rational or one of the three
    non-finite floats.  Arithmetic on finite values is exact, so the
    development speaks about the windowing and tolerance logic of the
    detectors and not about binary rounding error.  The tolerances [rtol]
    and [atol] are finite rationals.

    Library semantics are those of the releases the repository runs on
    (numpy 1.x, pandas before 2.0; the tests import [pandas.util.testing]). *)

From Stdlib Require Import String DecimalString.
From Stdlib Require Import List ZArith QArith Qabs Bool Lia Lqa Arith.
Import ListNotations.

Close Scope Q_scope.
Set Implicit Arguments.

(** ** Exceptions *)

Inductive exn : Type :=
| ValueError (msg : string)
| IndexError (msg : string).

Inductive result (A : Type) : Type :=
| Ok (a : A)
| Raise (e : exn).

Arguments Ok {A} a.
Arguments Raise {A} e.

Definition bind {A B} (m : result A) (k : A -> result B) : result B :=
  match m with
  | Ok a => k a
  | Raise e => Raise e
  end.

Notation "x <- m ;; k" := (bind m (fun x => k))
  (at level 61, m at next level, right associativity).

Fixpoint mapM {A B} (f : A -> result B) (l : list A) : result (list B) :=
  match l with
  | [] => Ok []
  | a :: l' => b <- f a ;; bs <- mapM f l' ;; Ok (b :: bs)
  end.

(** [tabulate n f] is the list [f 0; ...; f (n-1)]: a vectorised
    expression evaluated position by position. *)
Definition tabulate {A} (n : nat) (f : nat -> A) : list A :=
  map f (seq 0 n).

(** [str.format] of a Python int. *)
Definition format_int (z : Z) : string :=
  NilZero.string_of_int (Z.to_int z).

(** ** Floats *)

Inductive value : Type :=
| Fin (q : Q)
| PInf
| NInf
| NaN.

Module Numpy.

Definition isfinite (v : value) : bool :=
  match v with
  | Fin _ => true
  | _ => false
  end.

Definition isnan (v : value) : bool :=
  match v with
  | NaN => true
  | _ => false
  end.

(** IEEE subtraction. *)
Definition subtract (a b : value) : value :=
  match a, b with
  | NaN, _ | _, NaN => NaN
  | Fin p, Fin q => Fin (p - q)%Q
  | PInf, PInf | NInf, NInf => NaN
  | PInf, _ => PInf
  | NInf, _ => NInf
  | Fin _, PInf => NInf
  | Fin _, NInf => PInf
  end.

(** IEEE [==]. *)
Definition equal (a b : value) : bool :=
  match a, b with
  | Fin p, Fin q => Qeq_bool p q
  | PInf, PInf | NInf, NInf => true
  | _, _ => false
  end.

(** [within_tol] of [numpy.isclose], on finite operands. *)
Definition within_tol (x y atol rtol : Q) : bool :=
  Qle_bool (Qabs (x - y)) (atol + rtol * Qabs y)%Q.

(** [numpy.isclose(a, b, rtol, atol)] with [equal_nan=False]: the
    tolerance test where both operands are finite, [==] elsewhere. *)
Definition isclose (a b : value) (rtol atol : Q) : bool :=
  match a, b with
  | Fin x, Fin y => within_tol x y atol rtol
  | _, _ => equal a b
  end.

(** [numpy.allclose(a, b, rtol, atol)] with a scalar [b]. *)
Definition allclose (a : list value) (b : value) (rtol atol : Q) : bool :=
  forallb (fun ai => isclose ai b rtol atol) a.

(** [numpy.rint]: round to the nearest integer, ties to even. *)
Definition rint (q : Q) : Z :=
  let a := Qnum q in
  let b := Zpos (Qden q) in
  let fl := (a / b)%Z in
  match (2 * (a mod b) ?= b)%Z with
  | Lt => fl
  | Gt => (fl + 1)%Z
  | Eq => if Z.even fl then fl else (fl + 1)%Z
  end.

Definition pow10 (k : Z) : positive := Z.to_pos (10 ^ k).

(** [numpy.around] on a finite number: [rint(x * 10^d) / 10^d] for
    [d >= 0] and [rint(x / 10^-d) * 10^-d] for [d < 0]. *)
Definition around_fin (q : Q) (decimals : Z) : Q :=
  if (0 <=? decimals)%Z then
    let s := pow10 decimals in
    Qmake (rint (q * (Zpos s # 1))%Q) s
  else
    let s := pow10 (- decimals) in
    Qmake (rint (q * (1 # s))%Q * Zpos s) 1.

Definition around (v : value) (decimals : Z) : value :=
  match v with
  | Fin q => Fin (around_fin q decimals)
  | _ => v
  end.

End Numpy.

(** ** Series and the pandas operations the detectors use *)

Module Pandas.

(** A Series: an index of labels and as many values. *)
Record Series (L A : Type) : Type := mkSeries {
  index : list L;
  values : list A
}.

Arguments mkSeries {L A} index values.

Section Ops.
Context {L : Type}.

(** Elementwise operations keep the index. *)
Definition on_values {A B} (f : list A -> list B) (s : Series L A)
  : Series L B :=
  mkSeries (index s) (f (values s)).

(** [Series.round(decimals)]. *)
Definition round (s : Series L value) (decimals : Z) : Series L value :=
  on_values (map (fun v => Numpy.around v decimals)) s.

(** [Series.diff(periods=1)]: position 0 has no predecessor. *)
Definition diff_values (xs : list value) : list value :=
  tabulate (length xs) (fun i =>
    match i with
    | O => NaN
    | S j => Numpy.subtract (nth i xs NaN) (nth j xs NaN)
    end).

Definition diff (s : Series L value) : Series L value :=
  on_values diff_values s.

(** [Series.shift(periods)] of a boolean Series: positions shifted in
    from outside the Series hold NaN, here [None]. *)
Definition shift_values {A} (periods : Z) (xs : list A) : list (option A) :=
  tabulate (length xs) (fun i =>
    let j := (Z.of_nat i - periods)%Z in
    if (j <? 0)%Z then None else nth_error xs (Z.to_nat j)).

Definition shift {A} (s : Series L A) (periods : Z) : Series L (option A) :=
  on_values (shift_values periods) s.

(** [fillna(False)] after a shift. *)
Definition fillna_obj {A} (fill : A) (s : Series L (option A)) : Series L A :=
  on_values (map (fun o => match o with Some a => a | None => fill end)) s.

(** [fillna(False)] on a float Series: [False] is stored as [0.0]. *)
Definition fillna (fill : value) (s : Series L value) : Series L value :=
  on_values (map (fun v => if Numpy.isnan v then fill else v)) s.

(** [astype(bool)] on a float Series: zero is [False]. *)
Definition bool_of_value (v : value) : bool :=
  match v with
  | Fin q => negb (Qeq_bool q 0%Q)
  | _ => true
  end.

Definition astype_bool (s : Series L value) : Series L bool :=
  on_values (map bool_of_value) s.

(** [a | b] on two boolean Series with the same index. *)
Definition or_values (a b : list bool) : list bool :=
  map (fun p => orb (fst p) (snd p)) (combine a b).

Definition series_or (a b : Series L bool) : Series L bool :=
  mkSeries (index a) (or_values (values a) (values b)).

(** [Series.rolling(window)]: a fixed window; [min_periods] defaults
    to the window size. *)
Definition rolling (window : Z) : result nat :=
  if (window <? 0)%Z then Raise (ValueError "window must be non-negative")
  else Ok (Z.to_nat window).

(** The window ending at position [i]: [xs[max(0, i+1-w) : i+1]]. *)
Definition window_at {A} (w : nat) (xs : list A) (i : nat) : list A :=
  let start := S i - w in
  firstn (S i - start) (skipn start xs).

Definition count_valid (win : list value) : nat :=
  length (filter Numpy.isfinite win).

(** [Rolling.apply(func)]: [func] sees a window only when it holds at
    least [min_periods] observations, NaN and the infinities (which pandas
    turns into NaN beforehand) not being counted; the result is a float. *)
Definition apply_values (w : nat) (func : list value -> result value)
    (xs : list value) : result (list value) :=
  mapM (fun i =>
          let win := window_at w xs i in
          if w <=? count_valid win then func win else Ok NaN)
       (seq 0 (length xs)).

Definition apply (w : nat) (func : list value -> result value)
    (s : Series L value) : result (Series L value) :=
  vs <- apply_values w func (values s) ;;
  Ok (mkSeries (index s) vs).

End Ops.

End Pandas.

Import Pandas.

(** A Python bool stored in a float array. *)
Definition float_of_bool (b : bool) : value :=
  Fin (if b then 1%Q else 0%Q).

(** ** The module [pvanalytics.quality.gaps] *)

Module Gaps.

Definition _all_close_to_first (x : list value) (rtol atol : Q)
  : result bool :=
  match x with
  | [] => Raise (IndexError "index 0 is out of bounds for axis 0 with size 0")
  | x0 :: _ => Ok (Numpy.allclose x x0 rtol atol)
  end.

Section Detectors.
Context {L : Type}.

Definition stale_values_diff (x : Series L value) (window : Z)
    (rtol atol : Q) : result (Series L bool) :=
  if (window <? 2)%Z then
    Raise (ValueError ("window set to " ++ format_int window
                       ++ ", must be at least 2")%string)
  else
    w <- rolling window ;;
    r <- apply w (fun xs => b <- _all_close_to_first xs rtol atol ;;
                            Ok (float_of_bool b)) x ;;
    Ok (astype_bool (fillna (float_of_bool false) r)).

(** The body of the [while window > 0] loop, [n] being the value of
    [window] on entry. *)
Fixpoint spread (n : nat) (endpoints flags : Series L bool)
  : Series L bool :=
  match n with
  | O => flags
  | S n' =>
      spread n' endpoints
        (series_or flags
           (fillna_obj false (shift endpoints (- Z.of_nat n'))))
  end.

Definition stale_values_round (x : Series L value) (decimals window : Z)
  : result (Series L bool) :=
  let rounded_diff := diff (round x decimals) in
  w <- rolling (window - 1) ;;
  r <- apply w (fun xs =>
                  Ok (float_of_bool
                        (Z.of_nat (length (filter (fun v => Numpy.equal v (Fin 0%Q)) xs))
                         =? window - 1)%Z))
             rounded_diff ;;
  let endpoints := astype_bool (fillna (float_of_bool false) r) in
  Ok (spread (Z.to_nat window) endpoints endpoints).

Definition interpolation_diff (x : Series L value) (window : Z)
    (rtol atol : Q) : result (Series L bool) :=
  if (window <? 3)%Z then
    Raise (ValueError ("window set to " ++ format_int window
                       ++ ", must be at least 3")%string)
  else
    stale_values_diff (diff x) (window - 1) rtol atol.

End Detectors.

(** Defaults of the signatures. *)
Definition default_rtol : Q := (1 # 100000)%Q.
Definition default_atol : Q := (1 # 100000000)%Q.

End Gaps.

Import Gaps.

(** ** The test fixtures of [tests/quality/test_gaps.py] *)

Definition range_index {A} (xs : list A) : list nat := seq 0 (length xs).

Definition series_of (qs : list Q) : Series nat value :=
  mkSeries (range_index qs) (map Fin qs).

Definition mask_of {L} (r : result (Series L bool)) : option (list bool) :=
  match r with
  | Ok s => Some (values s)
  | Raise _ => None
  end.

Definition stale_data : Series nat value :=
  series_of [1.0; 1.001; 1.001; 1.001; 1.001; 1.001001; 1.001; 1.001; 1.2; 1.3]%Q.

Definition T := true.
Definition F := false.

Definition data_with_negatives : Series nat value :=
  series_of [0.0; 0.0; 0.0; -0.0; 0.00001; 0.000010001; -0.00000001]%Q.

Definition interpolated_data : Series nat value :=
  series_of [1.0; 1.001; 1.002001; 1.003; 1.004; 1.001001; 1.001001;
             1.001001; 1.2; 1.3; 1.5; 1.4; 1.5; 1.6; 1.7; 1.8; 2.0]%Q.

Definition span_in_middle : Series nat value :=
  series_of [1.0; 1.1; 1.2; 1.5; 1.5; 1.5; 1.5; 1.9; 2.0; 2.2]%Q.

Definition two_spans : Series nat value :=
  series_of [1; 2; 2; 2; 2; 3; 4; 4; 4; 4; 4; 6]%Q.

Definition noisy : Series nat value :=
  series_of [1.555; 1.5551; 1.5549; 1.555; 1.555; 1.5548; 1.5553]%Q.

(** A series whose first reading is missing. *)
Definition missing_first : Series nat value :=
  mkSeries [0; 1; 2] [NaN; Fin 1%Q; Fin 1%Q].

(** ** Definitions used to state the properties *)

(** The flags a rolling apply leaves after [fillna(False).astype(bool)],
    for a window function [g] that returns a bool. *)
Definition rolling_flags (w : nat) (g : list value -> bool)
    (xs : list value) : list bool :=
  tabulate (length xs) (fun i =>
    let win := window_at w xs i in (w <=? count_valid win) && g win).

(** [|v - a| <= atol + rtol * |a|] on numbers; a test that involves a
    non-finite operand is not satisfied. *)
Definition close_to (rtol atol : Q) (v a : value) : Prop :=
  match v, a with
  | Fin p, Fin q => (Qabs (p - q) <= atol + rtol * Qabs q)%Q
  | _, _ => False
  end.

(** The window function of [stale_values_diff]. *)
Definition close_to_first (rtol atol : Q) (win : list value) : bool :=
  Numpy.allclose win (hd NaN win) rtol atol.

(** [endpoints.shift(-k).fillna(False)], as values. *)
Definition shifted_back (k : nat) (es : list bool) : list bool :=
  map (fun o : option bool => match o with Some a => a | None => false end)
      (shift_values (- Z.of_nat k) es).

(** The window function of [stale_values_round]. *)
Definition is_zero (v : value) : bool := Numpy.equal v (Fin 0%Q).

Definition all_zero (window : Z) (win : list value) : bool :=
  (Z.of_nat (length (filter is_zero win)) =? window - 1)%Z.

Definition rounded (decimals : Z) (xs : list value) : list value :=
  map (fun v => Numpy.around v decimals) xs.

Definition endpoint_values (decimals window : Z) (xs : list value)
  : list bool :=
  rolling_flags (Z.to_nat (window - 1)) (all_zero window)
    (diff_values (rounded decimals xs)).

(** The first difference without its undefined leading position:
    [x[k+1] - x[k]] for [k < len(x) - 1]. *)
Definition first_difference (xs : list value) : list value :=
  tabulate (length xs - 1) (fun k =>
    Numpy.subtract (nth (S k) xs NaN) (nth k xs NaN)).

(** The interpolation detector in the words of the specification: run the
    diff-based detector with [window - 1] on the first difference, which is
    one position shorter than [x], then put the mask back on the index of
    [x], the leading position being [False]. *)
Definition interpolation_by_realignment {L} (x : Series L value) (window : Z)
    (rtol atol : Q) : result (Series L bool) :=
  m <- stale_values_diff
         (mkSeries (tl (index x)) (first_difference (values x)))
         (window - 1) rtol atol ;;
  Ok (mkSeries (index x)
        (match values x with
         | [] => []
         | _ :: _ => false :: values m
         end)).

Definition isinf (v : value) : bool :=
  match v with
  | PInf | NInf => true
  | _ => false
  end.







(** Ten identical readings, and a ramp. *)
Definition all_same : Series nat value :=
  series_of [1; 1; 1; 1; 1; 1; 1; 1; 1; 1]%Q.

Definition ramp_readings : list Q := [0; 10; 20; 30; 40; 50]%Q.

Definition ramp : Series nat value := series_of ramp_readings.

(** ** Operations on series used to state further properties *)

(** [numpy.negative]. *)
Definition negative (v : value) : value :=
  match v with
  | Fin q => Fin (- q)%Q
  | PInf => NInf
  | NInf => PInf
  | NaN => NaN
  end.

(** [-x]. *)
Definition negated {L} (x : Series L value) : Series L value :=
  on_values (map negative) x.

(** [x.iloc[:m]]. *)
Definition head_of {L A} (m : nat) (s : Series L A) : Series L A :=
  mkSeries (firstn m (index s)) (firstn m (values s)).

(** [x.iloc[k:]]. *)
Definition tail_from {L A} (k : nat) (s : Series L A) : Series L A :=
  mkSeries (skipn k (index s)) (skipn k (values s)).

(** * Properties *)

(** ** Lists, windows and the error monad *)

Section ListFacts.
Context {A : Type}.

Lemma length_tabulate (n : nat) (f : nat -> A) :
  length (tabulate n f) = n.
Proof. unfold tabulate. now rewrite length_map, length_seq. Qed.

Lemma nth_tabulate (n : nat) (f : nat -> A) (i : nat) (d : A) :
  i < n -> nth i (tabulate n f) d = f i.
Proof.
  intros Hi. unfold tabulate.
  rewrite (nth_indep _ d (f 0)) by now rewrite length_map, length_seq.
  rewrite map_nth, seq_nth by assumption. reflexivity.
Qed.

Lemma mapM_total {B} (f : A -> result B) (g : A -> B) (l : list A) :
  (forall a, In a l -> f a = Ok (g a)) -> mapM f l = Ok (map g l).
Proof.
  induction l as [|a l IH]; intros Hf; simpl; [reflexivity|].
  rewrite (Hf a (or_introl eq_refl)). simpl.
  rewrite IH by (intros b Hb; apply Hf; now right). reflexivity.
Qed.

Lemma length_window_at (w : nat) (xs : list A) (i : nat) :
  i < length xs -> length (window_at w xs i) = Nat.min w (S i).
Proof.
  intros Hi. unfold window_at. rewrite length_firstn, length_skipn. lia.
Qed.

Lemma nth_window_at (w : nat) (xs : list A) (i k : nat) (d : A) :
  k < Nat.min w (S i) ->
  nth k (window_at w xs i) d = nth (S i - w + k) xs d.
Proof.
  intros Hk. unfold window_at. rewrite nth_firstn.
  destruct (Nat.ltb_spec k (S i - (S i - w))) as [_|Hge]; [|lia].
  now rewrite nth_skipn.
Qed.

Lemma In_window_at (w : nat) (xs : list A) (i : nat) (d v : A) :
  i < length xs ->
  In v (window_at w xs i) <->
  exists j, S i - w <= j <= i /\ nth j xs d = v.
Proof.
  intros Hi. split.
  - intros Hin. apply (In_nth _ _ d) in Hin. destruct Hin as [k [Hk Hv]].
    rewrite length_window_at in Hk by assumption.
    rewrite nth_window_at in Hv by assumption.
    exists (S i - w + k). split; [lia | assumption].
  - intros [j [Hj Hv]]. subst v.
    replace j with (S i - w + (j - (S i - w))) by lia.
    rewrite <- (nth_window_at w xs i (k := j - (S i - w))) by lia.
    apply nth_In. rewrite length_window_at by assumption. lia.
Qed.

End ListFacts.

(** ** Rolling windows *)

Lemma count_valid_le (win : list value) : count_valid win <= length win.
Proof. apply filter_length_le. Qed.

Lemma count_valid_full (win : list value) :
  length win <= count_valid win <-> forallb Numpy.isfinite win = true.
Proof.
  unfold count_valid. split.
  - intros H. apply filter_length_forallb.
    pose proof (filter_length_le Numpy.isfinite win). lia.
  - intros H. now rewrite forallb_filter_id.
Qed.

Lemma bool_of_float_of_bool (b : bool) : bool_of_value (float_of_bool b) = b.
Proof. now destruct b. Qed.

Lemma rolling_apply_flags {L} (w : nat) (func : list value -> result value)
    (g : list value -> bool) (s : Series L value) :
  (forall win, w <= count_valid win -> func win = Ok (float_of_bool (g win))) ->
  exists r,
    apply w func s = Ok r /\
    astype_bool (fillna (float_of_bool false) r)
    = mkSeries (index s) (rolling_flags w g (values s)).
Proof.
  intros Hfunc. unfold apply, apply_values.
  rewrite (mapM_total _
    (fun i => let win := window_at w (values s) i in
              if w <=? count_valid win then float_of_bool (g win) else NaN)).
  - eexists. split; [reflexivity|].
    unfold astype_bool, fillna, on_values. cbn [index values]. f_equal.
    unfold rolling_flags, tabulate. rewrite !map_map.
    apply map_ext. intros i. cbv zeta.
    destruct (Nat.leb_spec w (count_valid (window_at w (values s) i))).
    + simpl. apply bool_of_float_of_bool.
    + reflexivity.
  - intros i _. cbv zeta.
    destruct (Nat.leb_spec w (count_valid (window_at w (values s) i)));
      [now apply Hfunc | reflexivity].
Qed.

Lemma length_rolling_flags (w : nat) (g : list value -> bool) (xs : list value) :
  length (rolling_flags w g xs) = length xs.
Proof. apply length_tabulate. Qed.

(** A flag is set exactly at the positions that end a full window of
    finite values on which [g] holds. *)
Lemma nth_rolling_flags (w : nat) (g : list value -> bool) (xs : list value)
    (i : nat) :
  i < length xs ->
  nth i (rolling_flags w g xs) false = true <->
  w <= S i /\
  (forall j, S i - w <= j <= i -> Numpy.isfinite (nth j xs NaN) = true) /\
  g (window_at w xs i) = true.
Proof.
  intros Hi. unfold rolling_flags. rewrite nth_tabulate by assumption.
  cbv zeta. rewrite andb_true_iff, Nat.leb_le.
  pose proof (count_valid_le (window_at w xs i)) as Hle.
  pose proof (length_window_at w xs Hi) as Hlen.
  split.
  - intros [Hc Hg]. split; [lia|]. split; [|assumption].
    assert (Hall : forallb Numpy.isfinite (window_at w xs i) = true)
      by (apply count_valid_full; lia).
    rewrite forallb_forall in Hall. intros j Hj. apply Hall.
    apply (In_window_at w xs NaN _ Hi). now exists j.
  - intros [Hw [Hfin Hg]]. split; [|assumption].
    assert (Hall : forallb Numpy.isfinite (window_at w xs i) = true).
    { apply forallb_forall. intros v Hv.
      apply (In_window_at w xs NaN _ Hi) in Hv. destruct Hv as [j [Hj Hv]].
      subst v. now apply Hfin. }
    apply count_valid_full in Hall. lia.
Qed.

(** ** The tolerance test *)

Lemma close_to_finite (rtol atol : Q) (v a : value) :
  close_to rtol atol v a ->
  Numpy.isfinite v = true /\ Numpy.isfinite a = true.
Proof. destruct v, a; simpl; intros H; try contradiction; now split. Qed.

Lemma isclose_close_to (rtol atol : Q) (v a : value) :
  Numpy.isfinite v = true -> Numpy.isfinite a = true ->
  Numpy.isclose v a rtol atol = true <-> close_to rtol atol v a.
Proof.
  destruct v, a; simpl; try discriminate. intros _ _.
  unfold Numpy.within_tol. apply Qle_bool_iff.
Qed.

Lemma hd_nth_0 {A} (l : list A) (d : A) : hd d l = nth 0 l d.
Proof. now destruct l. Qed.

Lemma all_close_to_first_total (rtol atol : Q) (w : nat) (win : list value) :
  0 < w -> w <= count_valid win ->
  (b <- _all_close_to_first win rtol atol ;; Ok (float_of_bool b))
  = Ok (float_of_bool (close_to_first rtol atol win)).
Proof.
  intros Hw Hc. pose proof (count_valid_le win) as Hle.
  destruct win as [|x0 win]; [simpl in Hle; lia | reflexivity].
Qed.

Lemma stale_values_diff_flags {L} (x : Series L value) (window : Z)
    (rtol atol : Q) :
  (2 <= window)%Z ->
  stale_values_diff x window rtol atol
  = Ok (mkSeries (index x)
          (rolling_flags (Z.to_nat window) (close_to_first rtol atol)
             (values x))).
Proof.
  intros Hw. unfold stale_values_diff, rolling.
  destruct (Z.ltb_spec window 2) as [|_]; [lia|].
  destruct (Z.ltb_spec window 0) as [|_]; [lia|].
  cbn [bind].
  destruct (@rolling_apply_flags L (Z.to_nat window)
              (fun xs => b <- _all_close_to_first xs rtol atol ;;
                         Ok (float_of_bool b))
              (close_to_first rtol atol) x) as [r [Hr Hflags]].
  - intros win Hc.
    apply (all_close_to_first_total rtol atol (w := Z.to_nat window));
      [lia | assumption].
  - rewrite Hr. cbn [bind]. now rewrite Hflags.
Qed.

(** On a full window of finite values the window function is the
    tolerance test of every member against the first one. *)
Lemma close_to_first_window (rtol atol : Q) (w : nat) (xs : list value)
    (i : nat) :
  i < length xs -> 0 < w <= S i ->
  (forall j, S i - w <= j <= i -> Numpy.isfinite (nth j xs NaN) = true) ->
  close_to_first rtol atol (window_at w xs i) = true <->
  forall j, S i - w <= j <= i ->
    close_to rtol atol (nth j xs NaN) (nth (S i - w) xs NaN).
Proof.
  intros Hi Hw Hfin. unfold close_to_first, Numpy.allclose.
  rewrite hd_nth_0, nth_window_at by lia.
  replace (S i - w + 0) with (S i - w) by lia.
  rewrite forallb_forall. split.
  - intros H j Hj. apply isclose_close_to; [apply Hfin; lia | apply Hfin; lia |].
    apply H. apply (In_window_at w xs NaN _ Hi). now exists j.
  - intros H v Hv. apply (In_window_at w xs NaN _ Hi) in Hv.
    destruct Hv as [j [Hj Hv]]. subst v.
    apply isclose_close_to; [apply Hfin; lia | apply Hfin; lia | now apply H].
Qed.

Lemma nth_stale_flags (rtol atol : Q) (w : nat) (xs : list value) (i : nat) :
  i < length xs -> 0 < w ->
  nth i (rolling_flags w (close_to_first rtol atol) xs) false = true <->
  w <= S i /\
  forall j, S i - w <= j <= i ->
    close_to rtol atol (nth j xs NaN) (nth (S i - w) xs NaN).
Proof.
  intros Hi Hw. rewrite nth_rolling_flags by assumption. split.
  - intros [Hle [Hfin Hg]]. split; [assumption|].
    apply close_to_first_window; try assumption; lia.
  - intros [Hle Hc]. split; [assumption|].
    assert (Hfin : forall j, S i - w <= j <= i ->
                     Numpy.isfinite (nth j xs NaN) = true)
      by (intros j Hj; exact (proj1 (close_to_finite _ _ _ _ (Hc j Hj)))).
    split; [assumption|].
    apply close_to_first_window; try assumption; lia.
Qed.

(** C1.  For a window of at least 2, [stale_values_diff] returns a mask
    whose position [i] is set exactly when a full window ends at [i]
    (that is [i >= window - 1]) and every value of [x[i-window+1 .. i]] is
    within tolerance of the first value of that window; positions before
    [window - 1] are not set, and no exception is raised. *)
Theorem stale_values_diff_spec {L} (x : Series L value) (window : Z)
    (rtol atol : Q) :
  (2 <= window)%Z ->
  exists flags,
    stale_values_diff x window rtol atol = Ok flags /\
    length (values flags) = length (values x) /\
    (forall i, i < length (values x) ->
       nth i (values flags) false = true <->
       (window - 1 <= Z.of_nat i)%Z /\
       forall j, i + 1 - Z.to_nat window <= j <= i ->
         close_to rtol atol (nth j (values x) NaN)
           (nth (i + 1 - Z.to_nat window) (values x) NaN)) /\
    (forall i, (Z.of_nat i < window - 1)%Z ->
       nth i (values flags) false = false).
Proof.
  intros Hw. eexists. split; [now apply stale_values_diff_flags|].
  cbn [values]. split; [apply length_rolling_flags|]. split.
  - intros i Hi. rewrite nth_stale_flags by (try assumption; lia).
    replace (S i - Z.to_nat window) with (i + 1 - Z.to_nat window) by lia.
    split; intros [H1 H2]; (split; [lia | assumption]).
  - intros i Hi.
    destruct (Nat.lt_ge_cases i (length (values x))) as [Hlt|Hge].
    + apply not_true_is_false. intros Ht.
      apply nth_stale_flags in Ht; [lia | assumption | lia].
    + apply nth_overflow. now rewrite length_rolling_flags.
Qed.

(** C4.  On a non-empty window of numbers [_all_close_to_first] returns,
    without raising, [True] exactly when every value of the window is
    within tolerance of the window's first element, the one fixed
    reference of all the comparisons. *)
Theorem all_close_to_first_spec (win : list value) (rtol atol : Q) :
  0 < length win ->
  forallb Numpy.isfinite win = true ->
  exists b,
    _all_close_to_first win rtol atol = Ok b /\
    (b = true <->
     forall v, In v win -> close_to rtol atol v (nth 0 win NaN)).
Proof.
  intros Hne Hfin. destruct win as [|x0 win]; [simpl in Hne; lia|].
  eexists. split; [reflexivity|].
  rewrite forallb_forall in Hfin.
  assert (H0 : Numpy.isfinite x0 = true) by (apply Hfin; now left).
  unfold Numpy.allclose. rewrite forallb_forall. cbn [nth].
  split; intros H v Hv.
  - apply isclose_close_to; auto.
  - apply isclose_close_to; auto.
Qed.

(** C5.  A window below the minimum makes [stale_values_diff] (minimum 2)
    and [interpolation_diff] (minimum 3) raise a ValueError whose message
    gives the offending value and the minimum; the outcome is the same
    for every series, and no mask is returned. *)
Theorem window_validation {L} (x : Series L value) (wd wi : Z)
    (rtol atol : Q) :
  (wd < 2)%Z -> (wi < 3)%Z ->
  stale_values_diff x wd rtol atol
  = Raise (ValueError ("window set to " ++ format_int wd
                       ++ ", must be at least 2")%string) /\
  interpolation_diff x wi rtol atol
  = Raise (ValueError ("window set to " ++ format_int wi
                       ++ ", must be at least 3")%string).
Proof.
  intros Hd Hi. unfold interpolation_diff, stale_values_diff.
  destruct (Z.ltb_spec wd 2) as [_|]; [|lia].
  destruct (Z.ltb_spec wi 3) as [_|]; [|lia].
  split; reflexivity.
Qed.

(** C6.  When the first element of the window ending at position [i] is
    not finite, no value passes the tolerance test against it and
    [stale_values_diff] leaves position [i] unset. *)
Theorem non_finite_reference_not_flagged {L} (x : Series L value)
    (window : Z) (rtol atol : Q) (i : nat) :
  (2 <= window)%Z ->
  i < length (values x) ->
  Numpy.isfinite (nth (S i - Z.to_nat window) (values x) NaN) = false ->
  (forall v,
     ~ close_to rtol atol v (nth (S i - Z.to_nat window) (values x) NaN)) /\
  exists flags,
    stale_values_diff x window rtol atol = Ok flags /\
    nth i (values flags) false = false.
Proof.
  intros Hw Hi Hnf. split.
  - intros v Hc. apply close_to_finite in Hc. destruct Hc as [_ Hc]. congruence.
  - eexists. split; [now apply stale_values_diff_flags|]. cbn [values].
    apply not_true_is_false. intros Ht.
    apply nth_stale_flags in Ht; [|assumption|lia].
    destruct Ht as [Hle Hc].
    specialize (Hc (S i - Z.to_nat window) ltac:(lia)).
    apply close_to_finite in Hc. destruct Hc as [Hc _]. congruence.
Qed.

Lemma close_to_mono (rtol atol rtol' atol' : Q) (v a : value) :
  (rtol <= rtol')%Q -> (atol <= atol')%Q ->
  close_to rtol atol v a -> close_to rtol' atol' v a.
Proof.
  intros Hr Ha. destruct v as [p| | |], a as [q| | |]; simpl; try contradiction.
  intros H. eapply Qle_trans; [exact H|].
  apply Qplus_le_compat; [assumption|].
  apply Qmult_le_compat_r; [assumption | apply Qabs_nonneg].
Qed.

(** C8.  Enlarging either tolerance keeps every flag that was set:
    position by position the mask for [(rtol, atol)] implies the mask for
    [(rtol', atol')]. *)
Theorem stale_values_diff_tolerance_monotone {L} (x : Series L value)
    (window : Z) (rtol atol rtol' atol' : Q) :
  (2 <= window)%Z -> (rtol <= rtol')%Q -> (atol <= atol')%Q ->
  exists flags flags',
    stale_values_diff x window rtol atol = Ok flags /\
    stale_values_diff x window rtol' atol' = Ok flags' /\
    forall i, nth i (values flags) false = true ->
              nth i (values flags') false = true.
Proof.
  intros Hw Hr Ha. do 2 eexists.
  split; [now apply stale_values_diff_flags|].
  split; [now apply stale_values_diff_flags|].
  cbn [values]. intros i Ht.
  destruct (Nat.lt_ge_cases i (length (values x))) as [Hlt|Hge].
  - apply nth_stale_flags in Ht; [|assumption|lia].
    apply nth_stale_flags; [assumption|lia|].
    destruct Ht as [Hle Hc]. split; [assumption|].
    intros j Hj. eapply close_to_mono; eauto.
  - rewrite nth_overflow in Ht by now rewrite length_rolling_flags.
    discriminate.
Qed.

(** ** Shifting and spreading *)

Lemma nth_map_default {A B} (f : A -> B) (l : list A) (d : B) (d' : A)
    (i : nat) :
  f d' = d -> nth i (map f l) d = f (nth i l d').
Proof. intros <-. apply map_nth. Qed.

Lemma nth_or_values (a b : list bool) (i : nat) :
  length a = length b ->
  nth i (or_values a b) false = nth i a false || nth i b false.
Proof.
  intros Hlen. unfold or_values.
  rewrite (nth_map_default _ _ (false, false)) by reflexivity.
  rewrite combine_nth by assumption. reflexivity.
Qed.

Lemma length_or_values (a b : list bool) :
  length a = length b -> length (or_values a b) = length a.
Proof.
  intros Hlen. unfold or_values. rewrite length_map, length_combine. lia.
Qed.

Lemma length_shifted_back (k : nat) (es : list bool) :
  length (shifted_back k es) = length es.
Proof.
  unfold shifted_back, shift_values. now rewrite length_map, length_tabulate.
Qed.

Lemma nth_shifted_back (k : nat) (es : list bool) (i : nat) :
  i < length es ->
  nth i (shifted_back k es) false = nth (i + k) es false.
Proof.
  intros Hi. unfold shifted_back, shift_values.
  rewrite (nth_map_default _ _ None) by reflexivity.
  rewrite nth_tabulate by assumption. cbv zeta.
  destruct (Z.ltb_spec (Z.of_nat i - - Z.of_nat k) 0) as [|_]; [lia|].
  replace (Z.to_nat (Z.of_nat i - - Z.of_nat k)) with (i + k) by lia.
  destruct (Nat.lt_ge_cases (i + k) (length es)) as [Hlt|Hge].
  - now rewrite (nth_error_nth' es false Hlt).
  - rewrite (proj2 (nth_error_None es (i + k)) Hge).
    now rewrite nth_overflow.
Qed.

Section Spread.
Context {L : Type}.

Lemma spread_step (n : nat) (e f : Series L bool) :
  spread (S n) e f
  = spread n e (mkSeries (index f)
                  (or_values (values f) (shifted_back n (values e)))).
Proof. reflexivity. Qed.

Lemma index_spread (n : nat) (e f : Series L bool) :
  index (spread n e f) = index f.
Proof.
  revert f. induction n as [|n IH]; intros f; [reflexivity|].
  rewrite spread_step, IH. reflexivity.
Qed.

Lemma length_spread (n : nat) (e f : Series L bool) :
  length (values e) = length (values f) ->
  length (values (spread n e f)) = length (values f).
Proof.
  revert f. induction n as [|n IH]; intros f Hlen; [reflexivity|].
  rewrite spread_step, IH; cbn [values];
    rewrite length_or_values; rewrite ?length_shifted_back; congruence.
Qed.

(** After the loop a position is set when it was set before or when one
    of the [n] positions from it onwards is an endpoint. *)
Lemma nth_spread (n : nat) (e f : Series L bool) (i : nat) :
  length (values e) = length (values f) ->
  i < length (values f) ->
  nth i (values (spread n e f)) false = true <->
  nth i (values f) false = true \/
  exists k, k < n /\ nth (i + k) (values e) false = true.
Proof.
  revert f. induction n as [|n IH]; intros f Hlen Hi.
  - simpl. split; [now left | intros [H|[k [Hk _]]]; [assumption | lia]].
  - assert (Hlo : length (or_values (values f) (shifted_back n (values e)))
                  = length (values f))
      by (rewrite length_or_values; rewrite ?length_shifted_back; congruence).
    rewrite spread_step, IH; cbn [values]; try congruence.
    rewrite nth_or_values by (rewrite length_shifted_back; congruence).
    rewrite orb_true_iff, nth_shifted_back by congruence.
    split.
    + intros [[H|H]|[k [Hk H]]].
      * now left.
      * right. exists n. split; [lia | assumption].
      * right. exists k. split; [lia | assumption].
    + intros [H|[k [Hk H]]].
      * left. now left.
      * destruct (Nat.eq_dec k n) as [->|Hne].
        -- left. now right.
        -- right. exists k. split; [lia | assumption].
Qed.

End Spread.

(** ** [stale_values_round] in closed form *)

Lemma length_diff_values (xs : list value) :
  length (diff_values xs) = length xs.
Proof. apply length_tabulate. Qed.

Lemma length_endpoint_values (decimals window : Z) (xs : list value) :
  length (endpoint_values decimals window xs) = length xs.
Proof.
  unfold endpoint_values, rounded.
  now rewrite length_rolling_flags, length_diff_values, length_map.
Qed.

Lemma stale_values_round_flags {L} (x : Series L value) (decimals window : Z) :
  (1 <= window)%Z ->
  stale_values_round x decimals window
  = Ok (spread (Z.to_nat window)
          (mkSeries (index x) (endpoint_values decimals window (values x)))
          (mkSeries (index x) (endpoint_values decimals window (values x)))).
Proof.
  intros Hw. unfold stale_values_round, rolling.
  destruct (Z.ltb_spec (window - 1) 0) as [|_]; [lia|].
  cbn [bind].
  destruct (@rolling_apply_flags L (Z.to_nat (window - 1))
              (fun xs => Ok (float_of_bool
                 (Z.of_nat (length (filter (fun v => Numpy.equal v (Fin 0%Q)) xs))
                  =? window - 1)%Z))
              (all_zero window) (diff (round x decimals))) as [r [Hr Hflags]].
  - reflexivity.
  - rewrite Hr. cbn [bind]. rewrite Hflags. reflexivity.
Qed.

(** C7.  With parameters it accepts, each detector returns a mask that
    carries the index of the input unchanged and has as many values. *)
Theorem shape_invariant {L} (x : Series L value) (wd wr wi decimals : Z)
    (rtol atol : Q) :
  (2 <= wd)%Z -> (1 <= wr)%Z -> (3 <= wi)%Z ->
  (exists flags, stale_values_diff x wd rtol atol = Ok flags /\
     index flags = index x /\ length (values flags) = length (values x)) /\
  (exists flags, stale_values_round x decimals wr = Ok flags /\
     index flags = index x /\ length (values flags) = length (values x)) /\
  (exists flags, interpolation_diff x wi rtol atol = Ok flags /\
     index flags = index x /\ length (values flags) = length (values x)).
Proof.
  intros Hd Hr Hi. repeat split.
  - eexists. split; [now apply stale_values_diff_flags|].
    cbn [index values]. split; [reflexivity | apply length_rolling_flags].
  - eexists. split; [now apply stale_values_round_flags|].
    rewrite index_spread, length_spread by reflexivity.
    cbn [index values]. split; [reflexivity | apply length_endpoint_values].
  - unfold interpolation_diff.
    destruct (Z.ltb_spec wi 3) as [|_]; [lia|].
    eexists. split; [apply stale_values_diff_flags; lia|].
    cbn [index values diff on_values].
    split; [reflexivity|].
    now rewrite length_rolling_flags, length_diff_values.
Qed.

(** C10.  On the empty series the three detectors return the empty mask
    and raise nothing. *)
Theorem empty_series {L} (wd wi : Z) (rtol atol : Q) :
  (2 <= wd)%Z -> (3 <= wi)%Z ->
  stale_values_diff (@mkSeries L value [] []) wd rtol atol
  = Ok (mkSeries [] []) /\
  stale_values_round (@mkSeries L value [] []) 3 4 = Ok (mkSeries [] []) /\
  interpolation_diff (@mkSeries L value [] []) wi rtol atol
  = Ok (mkSeries [] []).
Proof.
  intros Hd Hi. split; [|split].
  - now rewrite stale_values_diff_flags.
  - reflexivity.
  - unfold interpolation_diff.
    destruct (Z.ltb_spec wi 3) as [|_]; [lia|].
    rewrite stale_values_diff_flags by lia. reflexivity.
Qed.

(** ** Rounding *)

Lemma rint_multiple (n : Z) (s : positive) :
  Numpy.rint (Qmake (n * Zpos s) s) = n.
Proof.
  unfold Numpy.rint. cbn [Qnum Qden].
  rewrite Z.div_mul, Z.mod_mul by discriminate. reflexivity.
Qed.

Lemma rint_scaled_up (n : Z) (s : positive) :
  Numpy.rint ((n # s) * (Zpos s # 1))%Q = n.
Proof.
  unfold Qmult. cbn [Qnum Qden]. rewrite Pos.mul_1_r. apply rint_multiple.
Qed.

Lemma rint_scaled_down (n : Z) (s : positive) :
  Numpy.rint ((n * Zpos s # 1) * (1 # s))%Q = n.
Proof.
  unfold Qmult. cbn [Qnum Qden]. rewrite Z.mul_1_r.
  change (1 * s)%positive with s. apply rint_multiple.
Qed.

Lemma around_fin_idempotent (q : Q) (decimals : Z) :
  Numpy.around_fin (Numpy.around_fin q decimals) decimals
  = Numpy.around_fin q decimals.
Proof.
  unfold Numpy.around_fin. destruct (0 <=? decimals)%Z; cbv zeta.
  - f_equal. apply rint_scaled_up.
  - f_equal. f_equal. apply rint_scaled_down.
Qed.

Lemma around_idempotent (v : value) (decimals : Z) :
  Numpy.around (Numpy.around v decimals) decimals = Numpy.around v decimals.
Proof.
  destruct v; simpl; try reflexivity. now rewrite around_fin_idempotent.
Qed.

Lemma round_idempotent {L} (x : Series L value) (decimals : Z) :
  round (round x decimals) decimals = round x decimals.
Proof.
  unfold round, on_values. cbn [index values]. f_equal.
  rewrite map_map. apply map_ext. intros v. apply around_idempotent.
Qed.

(** C9.  [stale_values_round] gives the same outcome on a series and on
    that series rounded beforehand to the same number of decimals. *)
Theorem stale_values_round_pre_rounded {L} (x : Series L value)
    (decimals window : Z) :
  stale_values_round (round x decimals) decimals window
  = stale_values_round x decimals window.
Proof.
  unfold stale_values_round. now rewrite round_idempotent.
Qed.

(** ** The interpolation detector as a stale-value detector *)

Lemma tabulate_S {A} (n : nat) (f : nat -> A) :
  tabulate (S n) f = f 0 :: tabulate n (fun k => f (S k)).
Proof.
  unfold tabulate. cbn [seq map]. f_equal.
  now rewrite <- seq_shift, map_map.
Qed.

Lemma diff_values_cons (x0 : value) (xs : list value) :
  diff_values (x0 :: xs) = NaN :: first_difference (x0 :: xs).
Proof.
  unfold diff_values, first_difference. cbn [length].
  rewrite tabulate_S. f_equal. now rewrite Nat.sub_succ, Nat.sub_0_r.
Qed.

Lemma window_at_cons {A} (w : nat) (a : A) (xs : list A) (i : nat) :
  w <= S i -> window_at w (a :: xs) (S i) = window_at w xs i.
Proof.
  intros Hw. unfold window_at.
  replace (S (S i) - w) with (S (S i - w)) by lia.
  cbn [skipn]. reflexivity.
Qed.

Lemma window_at_short {A} (w : nat) (xs : list A) (i : nat) :
  S i <= w -> window_at w xs i = firstn (S i) xs.
Proof.
  intros Hw. unfold window_at.
  replace (S i - w) with 0 by lia. now rewrite Nat.sub_0_r.
Qed.

(** A leading NaN costs the windows that reach it their flag and leaves
    the other windows as they are. *)
Lemma rolling_flags_cons_nan (w : nat) (g : list value -> bool)
    (ds : list value) :
  0 < w ->
  rolling_flags w g (NaN :: ds) = false :: rolling_flags w g ds.
Proof.
  intros Hw. unfold rolling_flags. cbn [length]. rewrite tabulate_S. f_equal.
  - rewrite window_at_short by lia. cbn.
    destruct (Nat.leb_spec w 0); [lia | reflexivity].
  - unfold tabulate. apply map_ext_in. intros i Hi.
    apply in_seq in Hi. cbv zeta.
    destruct (Nat.le_gt_cases w (S i)) as [Hle|Hgt].
    + now rewrite window_at_cons.
    + rewrite (window_at_short (w := w) (NaN :: ds) (i := S i)) by lia.
      rewrite firstn_cons.
      change (count_valid (NaN :: firstn (S i) ds))
        with (count_valid (firstn (S i) ds)).
      pose proof (count_valid_le (firstn (S i) ds)) as H1.
      pose proof (firstn_le_length (S i) ds) as H2.
      pose proof (count_valid_le (window_at w ds i)) as H3.
      rewrite length_window_at in H3 by lia.
      destruct (Nat.leb_spec w (count_valid (firstn (S i) ds))); [lia|].
      destruct (Nat.leb_spec w (count_valid (window_at w ds i))); [lia|].
      reflexivity.
Qed.

(** C3.  For a window of at least 3, [interpolation_diff] is
    [stale_values_diff] with [window - 1] on the first difference of [x];
    the mask is the one of the shortened first difference put back on the
    index of [x], and its leading position is [False]. *)
Theorem interpolation_diff_refines {L} (x : Series L value) (window : Z)
    (rtol atol : Q) :
  (3 <= window)%Z ->
  interpolation_diff x window rtol atol
  = stale_values_diff (diff x) (window - 1) rtol atol /\
  interpolation_diff x window rtol atol
  = interpolation_by_realignment x window rtol atol /\
  exists flags,
    interpolation_diff x window rtol atol = Ok flags /\
    index flags = index x /\
    nth 0 (values flags) false = false.
Proof.
  intros Hw.
  assert (Hdef : interpolation_diff x window rtol atol
                 = stale_values_diff (diff x) (window - 1) rtol atol).
  { unfold interpolation_diff.
    destruct (Z.ltb_spec window 3) as [|_]; [lia | reflexivity]. }
  assert (Hflags : interpolation_diff x window rtol atol
            = Ok (mkSeries (index x)
                    (match values x with
                     | [] => []
                     | _ :: _ =>
                         false :: rolling_flags (Z.to_nat (window - 1))
                                    (close_to_first rtol atol)
                                    (first_difference (values x))
                     end))).
  { rewrite Hdef, stale_values_diff_flags by lia.
    cbn [index values diff on_values]. f_equal. f_equal.
    destruct (values x) as [|x0 xs]; [reflexivity|].
    rewrite diff_values_cons. apply rolling_flags_cons_nan. lia. }
  split; [exact Hdef|]. split.
  - rewrite Hflags. unfold interpolation_by_realignment.
    rewrite stale_values_diff_flags by lia. reflexivity.
  - eexists. split; [exact Hflags|]. cbn [index values].
    split; [reflexivity|]. now destruct (values x).
Qed.

(** ** Runs of values that are identical after rounding *)

Lemma equal_trans (u v t : value) :
  Numpy.equal u v = true -> Numpy.equal v t = true -> Numpy.equal u t = true.
Proof.
  destruct u, v, t; simpl; try discriminate; try reflexivity.
  rewrite !Qeq_bool_iff. apply Qeq_trans.
Qed.






(** ** Endpoints of [stale_values_round] *)

Lemma nth_rounded (decimals : Z) (xs : list value) (j : nat) :
  nth j (rounded decimals xs) NaN = Numpy.around (nth j xs NaN) decimals.
Proof.
  unfold rounded.
  exact (@nth_map_default _ _ (fun v => Numpy.around v decimals) xs
           NaN NaN j eq_refl).
Qed.

Lemma nth_diff_values_0 (xs : list value) : nth 0 (diff_values xs) NaN = NaN.
Proof. now destruct xs. Qed.

Lemma nth_diff_values (xs : list value) (j : nat) :
  0 < j < length xs ->
  nth j (diff_values xs) NaN
  = Numpy.subtract (nth j xs NaN) (nth (j - 1) xs NaN).
Proof.
  intros Hj. unfold diff_values. rewrite nth_tabulate by lia.
  destruct j as [|j]; [lia|]. now rewrite Nat.sub_succ, Nat.sub_0_r.
Qed.

Lemma is_zero_finite (v : value) : is_zero v = true -> Numpy.isfinite v = true.
Proof. now destruct v. Qed.

Lemma is_zero_subtract (u v : value) :
  isinf u = false -> isinf v = false ->
  is_zero (Numpy.subtract v u) = Numpy.equal u v.
Proof.
  destruct u as [p| | |], v as [q| | |]; simpl; try discriminate;
    try reflexivity.
  intros _ _. apply eq_true_iff_eq. rewrite !Qeq_bool_iff.
  split; intros H; lra.
Qed.


Section NoInfinity.
Variable decimals : Z.
Variable xs : list value.
Hypothesis Hnoinf : Forall (fun v => isinf v = false) xs.





End NoInfinity.




(** ** The detectors on the fixtures of the test suite *)

Example test_stale_values_diff_res1 :
  mask_of (stale_values_diff stale_data 3 default_rtol default_atol)
  = Some [F; F; F; T; T; T; T; T; F; F].
Proof. vm_compute. reflexivity. Qed.

Example test_stale_values_diff_res2 :
  mask_of (stale_values_diff stale_data 2 (1 # 100000000)%Q default_atol)
  = Some [F; F; T; T; T; F; F; T; F; F].
Proof. vm_compute. reflexivity. Qed.

Example test_stale_values_diff_res3 :
  mask_of (stale_values_diff stale_data 7 default_rtol default_atol)
  = Some [F; F; F; F; F; F; F; T; F; F].
Proof. vm_compute. reflexivity. Qed.

Example test_stale_values_diff_handles_negatives :
  mask_of (stale_values_diff data_with_negatives 3 default_rtol default_atol)
  = Some [F; F; T; T; F; F; F].
Proof. vm_compute. reflexivity. Qed.

Example test_stale_values_diff_raises_error :
  stale_values_diff stale_data 1 default_rtol default_atol
  = Raise (ValueError "window set to 1, must be at least 2").
Proof. vm_compute. reflexivity. Qed.

Example test_interpolation_diff_res1 :
  mask_of (interpolation_diff interpolated_data 3 default_rtol default_atol)
  = Some [F; F; F; F; F; F; F; T; F; F; F; F; F; T; T; T; F].
Proof. vm_compute. reflexivity. Qed.

Example test_interpolation_diff_res3 :
  mask_of (interpolation_diff interpolated_data 5 default_rtol default_atol)
  = Some [F; F; F; F; F; F; F; F; F; F; F; F; F; F; F; T; F].
Proof. vm_compute. reflexivity. Qed.

Example test_interpolation_diff_raises_error :
  interpolation_diff interpolated_data 2 default_rtol default_atol
  = Raise (ValueError "window set to 2, must be at least 3").
Proof. vm_compute. reflexivity. Qed.

Example test_stale_values_round_noisy :
  mask_of (stale_values_round noisy 3 4) = Some [T; T; T; T; T; T; T].
Proof. vm_compute. reflexivity. Qed.

Example test_stale_values_round_span_in_middle :
  mask_of (stale_values_round span_in_middle 3 4)
  = Some [F; F; F; T; T; T; T; F; F; F].
Proof. vm_compute. reflexivity. Qed.

Example test_stale_values_larger_window_4 :
  mask_of (stale_values_round two_spans 3 4)
  = Some [F; T; T; T; T; F; T; T; T; T; T; F].
Proof. vm_compute. reflexivity. Qed.

Example test_stale_values_larger_window_5 :
  mask_of (stale_values_round two_spans 3 5)
  = Some [F; F; F; F; F; F; T; T; T; T; T; F].
Proof. vm_compute. reflexivity. Qed.

(** The reference is fixed: [1.0; 1.5; 2.0] moves by the tolerance from
    each value to the next and leaves it with respect to the first. *)
Example reference_is_the_first_value :
  _all_close_to_first [Fin 1; Fin 1.5; Fin 2]%Q 0%Q 0.5%Q = Ok false /\
  _all_close_to_first [Fin 1; Fin 1.5]%Q 0%Q 0.5%Q = Ok true /\
  _all_close_to_first [Fin 1.5; Fin 2]%Q 0%Q 0.5%Q = Ok true.
Proof. vm_compute. repeat split. Qed.

(** Infinities.  [numpy.isclose] compares an infinity equal to itself, so
    the window function alone accepts a window of one infinity; the rolling
    apply never hands it such a window.  A run of one infinity has an
    undefined first difference and is not a run for [stale_values_round]. *)
Example all_close_to_first_infinite_window :
  _all_close_to_first [PInf; PInf] default_rtol default_atol = Ok true /\
  mask_of (stale_values_diff (mkSeries [0; 1] [PInf; PInf]) 2
             default_rtol default_atol) = Some [F; F].
Proof. vm_compute. split; reflexivity. Qed.

Example stale_values_round_infinite_run :
  mask_of (stale_values_round (mkSeries [0; 1; 2; 3] [PInf; PInf; PInf; PInf])
             3 4) = Some [F; F; F; F].
Proof. vm_compute. reflexivity. Qed.

(** ** The theorems at concrete inputs *)

Lemma stale_values_diff_spec_witness :
  (2 <= 3)%Z /\
  exists flags,
    stale_values_diff stale_data 3 default_rtol default_atol = Ok flags /\
    length (values flags) = length (values stale_data) /\
    (forall i, i < length (values stale_data) ->
       nth i (values flags) false = true <->
       (3 - 1 <= Z.of_nat i)%Z /\
       forall j, i + 1 - Z.to_nat 3 <= j <= i ->
         close_to default_rtol default_atol (nth j (values stale_data) NaN)
           (nth (i + 1 - Z.to_nat 3) (values stale_data) NaN)) /\
    (forall i, (Z.of_nat i < 3 - 1)%Z ->
       nth i (values flags) false = false).
Proof.
  split; [lia|].
  apply (stale_values_diff_spec stale_data (window := 3)
           default_rtol default_atol).
  lia.
Defined.


Lemma interpolation_diff_refines_witness :
  (3 <= 3)%Z /\
  interpolation_diff interpolated_data 3 default_rtol default_atol
  = stale_values_diff (diff interpolated_data) (3 - 1)
      default_rtol default_atol /\
  interpolation_diff interpolated_data 3 default_rtol default_atol
  = interpolation_by_realignment interpolated_data 3
      default_rtol default_atol /\
  exists flags,
    interpolation_diff interpolated_data 3 default_rtol default_atol
    = Ok flags /\
    index flags = index interpolated_data /\
    nth 0 (values flags) false = false.
Proof.
  split; [lia|].
  apply (interpolation_diff_refines interpolated_data (window := 3)
           default_rtol default_atol).
  lia.
Defined.

Lemma all_close_to_first_spec_witness :
  0 < length [Fin 1; Fin 1.001]%Q /\
  forallb Numpy.isfinite [Fin 1; Fin 1.001]%Q = true /\
  exists b,
    _all_close_to_first [Fin 1; Fin 1.001]%Q default_rtol default_atol
    = Ok b /\
    (b = true <->
     forall v, In v [Fin 1; Fin 1.001]%Q ->
       close_to default_rtol default_atol v
         (nth 0 [Fin 1; Fin 1.001]%Q NaN)).
Proof.
  split; [simpl; lia|]. split; [reflexivity|].
  apply (all_close_to_first_spec [Fin 1; Fin 1.001]%Q
           default_rtol default_atol);
    [simpl; lia | reflexivity].
Defined.

Lemma window_validation_witness :
  (1 < 2)%Z /\ (2 < 3)%Z /\
  stale_values_diff stale_data 1 default_rtol default_atol
  = Raise (ValueError ("window set to " ++ format_int 1
                       ++ ", must be at least 2")%string) /\
  interpolation_diff stale_data 2 default_rtol default_atol
  = Raise (ValueError ("window set to " ++ format_int 2
                       ++ ", must be at least 3")%string).
Proof.
  split; [lia|]. split; [lia|].
  apply (window_validation stale_data (wd := 1) (wi := 2)
           default_rtol default_atol); lia.
Defined.

Lemma non_finite_reference_not_flagged_witness :
  (2 <= 2)%Z /\
  1 < length (values missing_first) /\
  Numpy.isfinite (nth (2 - Z.to_nat 2) (values missing_first) NaN) = false /\
  (forall v,
     ~ close_to default_rtol default_atol v
         (nth (2 - Z.to_nat 2) (values missing_first) NaN)) /\
  exists flags,
    stale_values_diff missing_first 2 default_rtol default_atol = Ok flags /\
    nth 1 (values flags) false = false.
Proof.
  split; [lia|]. split; [simpl; lia|]. split; [reflexivity|].
  apply (non_finite_reference_not_flagged missing_first (window := 2)
           default_rtol default_atol (i := 1));
    [lia | simpl; lia | reflexivity].
Defined.

Lemma shape_invariant_witness :
  (2 <= 3)%Z /\ (1 <= 4)%Z /\ (3 <= 3)%Z /\
  (exists flags,
     stale_values_diff stale_data 3 default_rtol default_atol = Ok flags /\
     index flags = index stale_data /\
     length (values flags) = length (values stale_data)) /\
  (exists flags,
     stale_values_round stale_data 3 4 = Ok flags /\
     index flags = index stale_data /\
     length (values flags) = length (values stale_data)) /\
  (exists flags,
     interpolation_diff stale_data 3 default_rtol default_atol = Ok flags /\
     index flags = index stale_data /\
     length (values flags) = length (values stale_data)).
Proof.
  split; [lia|]. split; [lia|]. split; [lia|].
  apply (shape_invariant stale_data (wd := 3) (wr := 4) (wi := 3) 3
           default_rtol default_atol); lia.
Defined.

Lemma stale_values_diff_tolerance_monotone_witness :
  (2 <= 2)%Z /\
  ((1 # 100000000) <= default_rtol)%Q /\
  (default_atol <= default_atol)%Q /\
  exists flags flags',
    stale_values_diff stale_data 2 (1 # 100000000)%Q default_atol
    = Ok flags /\
    stale_values_diff stale_data 2 default_rtol default_atol = Ok flags' /\
    forall i, nth i (values flags) false = true ->
              nth i (values flags') false = true.
Proof.
  assert (Hr : ((1 # 100000000) <= default_rtol)%Q)
    by (unfold Qle; simpl; lia).
  assert (Ha : (default_atol <= default_atol)%Q)
    by (unfold Qle; simpl; lia).
  split; [lia|]. split; [exact Hr|]. split; [exact Ha|].
  apply (stale_values_diff_tolerance_monotone stale_data (window := 2));
    [lia | exact Hr | exact Ha].
Defined.

Lemma empty_series_witness :
  (2 <= 3)%Z /\ (3 <= 3)%Z /\
  stale_values_diff (@mkSeries nat value [] []) 3 default_rtol default_atol
  = Ok (mkSeries [] []) /\
  stale_values_round (@mkSeries nat value [] []) 3 4 = Ok (mkSeries [] []) /\
  interpolation_diff (@mkSeries nat value [] []) 3 default_rtol default_atol
  = Ok (mkSeries [] []).
Proof.
  split; [lia|]. split; [lia|].
  apply (@empty_series nat 3 3 default_rtol default_atol); lia.
Defined.

(** * Further properties of the detectors *)

(** ** [interpolation_diff] in terms of the series itself *)

Lemma interpolation_diff_flags {L} (x : Series L value) (window : Z)
    (rtol atol : Q) :
  (3 <= window)%Z ->
  interpolation_diff x window rtol atol
  = Ok (mkSeries (index x)
          (rolling_flags (Z.to_nat (window - 1)) (close_to_first rtol atol)
             (diff_values (values x)))).
Proof.
  intros Hw. unfold interpolation_diff.
  destruct (Z.ltb_spec window 3) as [|_]; [lia|].
  rewrite stale_values_diff_flags by lia. reflexivity.
Qed.

(** A position of the first difference is flagged when the [w] differences
    that end there are within tolerance of the earliest of them; the
    undefined difference at position 0 never takes part. *)
Lemma nth_interpolation_flags (rtol atol : Q) (w : nat) (xs : list value)
    (i : nat) :
  i < length xs -> 0 < w ->
  nth i (rolling_flags w (close_to_first rtol atol) (diff_values xs)) false
  = true <->
  w <= i /\
  forall j, i - w < j <= i ->
    close_to rtol atol
      (Numpy.subtract (nth j xs NaN) (nth (j - 1) xs NaN))
      (Numpy.subtract (nth (S (i - w)) xs NaN) (nth (i - w) xs NaN)).
Proof.
  intros Hi Hw.
  rewrite nth_stale_flags by (rewrite ?length_diff_values; assumption).
  split.
  - intros [Hle Hc].
    assert (Hlt : w <= i).
    { destruct (Nat.eq_dec w (S i)) as [Heq|]; [|lia].
      specialize (Hc i ltac:(lia)). apply close_to_finite in Hc.
      destruct Hc as [_ Hc]. replace (S i - w) with 0 in Hc by lia.
      rewrite nth_diff_values_0 in Hc. discriminate. }
    split; [assumption|]. intros j Hj.
    specialize (Hc j ltac:(lia)).
    replace (S i - w) with (S (i - w)) in Hc by lia.
    rewrite !nth_diff_values in Hc by lia.
    now rewrite Nat.sub_succ, Nat.sub_0_r in Hc.
  - intros [Hle Hc]. split; [lia|]. intros j Hj.
    replace (S i - w) with (S (i - w)) in * by lia.
    rewrite !nth_diff_values by lia.
    rewrite Nat.sub_succ, Nat.sub_0_r. apply Hc. lia.
Qed.

(** X1.  For a window of at least 3, [interpolation_diff] sets position
    [i] exactly when [i >= window - 1] and each of the [window - 1] first
    differences inside [x[i-window+1 .. i]] is within tolerance of the
    earliest of them; in particular the first [window - 1] positions are
    never set. *)
Theorem interpolation_diff_spec {L} (x : Series L value) (window : Z)
    (rtol atol : Q) :
  (3 <= window)%Z ->
  exists flags,
    interpolation_diff x window rtol atol = Ok flags /\
    forall i, i < length (values x) ->
      nth i (values flags) false = true <->
      (window - 1 <= Z.of_nat i)%Z /\
      forall j, i + 2 - Z.to_nat window <= j <= i ->
        close_to rtol atol
          (Numpy.subtract (nth j (values x) NaN) (nth (j - 1) (values x) NaN))
          (Numpy.subtract (nth (i + 2 - Z.to_nat window) (values x) NaN)
                          (nth (i + 1 - Z.to_nat window) (values x) NaN)).
Proof.
  intros Hw. eexists. split; [now apply interpolation_diff_flags|].
  cbn [values]. intros i Hi.
  rewrite nth_interpolation_flags by (try assumption; lia).
  split.
  - intros [Hle Hc]. split; [lia|]. intros j Hj.
    replace (i + 2 - Z.to_nat window) with (S (i - Z.to_nat (window - 1)))
      by lia.
    replace (i + 1 - Z.to_nat window) with (i - Z.to_nat (window - 1))
      by lia.
    apply Hc. lia.
  - intros [Hle Hc]. split; [lia|]. intros j Hj.
    replace (S (i - Z.to_nat (window - 1))) with (i + 2 - Z.to_nat window)
      by lia.
    replace (i - Z.to_nat (window - 1)) with (i + 1 - Z.to_nat window)
      by lia.
    apply Hc. lia.
Qed.

(** X2.  Enlarging either tolerance keeps every flag of
    [interpolation_diff]. *)
Theorem interpolation_diff_tolerance_monotone {L} (x : Series L value)
    (window : Z) (rtol atol rtol' atol' : Q) :
  (3 <= window)%Z -> (rtol <= rtol')%Q -> (atol <= atol')%Q ->
  exists flags flags',
    interpolation_diff x window rtol atol = Ok flags /\
    interpolation_diff x window rtol' atol' = Ok flags' /\
    forall i, nth i (values flags) false = true ->
              nth i (values flags') false = true.
Proof.
  intros Hw Hr Ha. do 2 eexists.
  split; [now apply interpolation_diff_flags|].
  split; [now apply interpolation_diff_flags|].
  cbn [values]. intros i Ht.
  destruct (Nat.lt_ge_cases i (length (values x))) as [Hlt|Hge].
  - apply nth_interpolation_flags in Ht; [|assumption|lia].
    apply nth_interpolation_flags; [assumption|lia|].
    destruct Ht as [Hle Hc]. split; [assumption|].
    intros j Hj. eapply close_to_mono; eauto.
  - rewrite nth_overflow in Ht
      by now rewrite length_rolling_flags, length_diff_values.
    discriminate.
Qed.

(** ** Slices of the input *)

Lemma window_at_firstn {A} (w m : nat) (xs : list A) (i : nat) :
  i < m -> window_at w (firstn m xs) i = window_at w xs i.
Proof.
  intros Hi. unfold window_at.
  rewrite skipn_firstn_comm, firstn_firstn. f_equal. lia.
Qed.

Lemma window_at_skipn {A} (w k : nat) (xs : list A) (i : nat) :
  w <= S i -> window_at w (skipn k xs) i = window_at w xs (k + i).
Proof.
  intros Hw. unfold window_at. rewrite skipn_skipn.
  replace (S (k + i) - w) with (S i - w + k) by lia.
  f_equal. lia.
Qed.

Lemma rolling_flags_firstn (w : nat) (g : list value -> bool) (m : nat)
    (xs : list value) :
  rolling_flags w g (firstn m xs) = firstn m (rolling_flags w g xs).
Proof.
  apply (nth_ext _ _ false false).
  - now rewrite length_firstn, !length_rolling_flags, length_firstn.
  - intros i Hi. rewrite length_rolling_flags, length_firstn in Hi.
    rewrite nth_firstn. destruct (Nat.ltb_spec i m) as [_|]; [|lia].
    unfold rolling_flags.
    rewrite !nth_tabulate by (rewrite ?length_firstn; lia).
    cbv zeta. now rewrite window_at_firstn by lia.
Qed.

Lemma diff_values_firstn (m : nat) (xs : list value) :
  diff_values (firstn m xs) = firstn m (diff_values xs).
Proof.
  apply (nth_ext _ _ NaN NaN).
  - now rewrite length_firstn, !length_diff_values, length_firstn.
  - intros i Hi. rewrite length_diff_values, length_firstn in Hi.
    rewrite nth_firstn. destruct (Nat.ltb_spec i m) as [_|]; [|lia].
    unfold diff_values.
    rewrite !nth_tabulate by (rewrite ?length_firstn; lia).
    destruct i as [|j]; [reflexivity|].
    rewrite !nth_firstn.
    destruct (Nat.ltb_spec (S j) m); [|lia].
    destruct (Nat.ltb_spec j m); [|lia]. reflexivity.
Qed.

(** X3.  [stale_values_diff] does not look ahead: on the first [m]
    readings of a series it returns the first [m] flags of the mask of the
    whole series. *)
Theorem stale_values_diff_prefix {L} (x : Series L value) (m : nat)
    (window : Z) (rtol atol : Q) :
  (2 <= window)%Z ->
  exists flags,
    stale_values_diff x window rtol atol = Ok flags /\
    stale_values_diff (head_of m x) window rtol atol = Ok (head_of m flags).
Proof.
  intros Hw. eexists. split; [now apply stale_values_diff_flags|].
  rewrite stale_values_diff_flags by assumption.
  unfold head_of. cbn [index values]. now rewrite rolling_flags_firstn.
Qed.

(** X4.  [interpolation_diff] does not look ahead either. *)
Theorem interpolation_diff_prefix {L} (x : Series L value) (m : nat)
    (window : Z) (rtol atol : Q) :
  (3 <= window)%Z ->
  exists flags,
    interpolation_diff x window rtol atol = Ok flags /\
    interpolation_diff (head_of m x) window rtol atol = Ok (head_of m flags).
Proof.
  intros Hw. eexists. split; [now apply interpolation_diff_flags|].
  rewrite interpolation_diff_flags by assumption.
  unfold head_of. cbn [index values].
  now rewrite diff_values_firstn, rolling_flags_firstn.
Qed.

(** X5.  Dropping the first [k] readings shifts the mask of
    [stale_values_diff]: from position [window - 1] of the shortened series
    onwards, where a full window exists, its flags are the flags the whole
    series has [k] positions later, and its index is the remaining index. *)
Theorem stale_values_diff_suffix {L} (x : Series L value) (k : nat)
    (window : Z) (rtol atol : Q) :
  (2 <= window)%Z ->
  exists flags flags',
    stale_values_diff x window rtol atol = Ok flags /\
    stale_values_diff (tail_from k x) window rtol atol = Ok flags' /\
    index flags' = skipn k (index x) /\
    forall i, (window - 1 <= Z.of_nat i)%Z ->
      nth i (values flags') false = nth (k + i) (values flags) false.
Proof.
  intros Hw. do 2 eexists.
  split; [now apply stale_values_diff_flags|].
  split; [now apply stale_values_diff_flags|].
  cbn [index values tail_from]. split; [reflexivity|].
  intros i Hi.
  destruct (Nat.lt_ge_cases (k + i) (length (values x))) as [Hlt|Hge].
  - unfold rolling_flags.
    rewrite !nth_tabulate by (rewrite ?length_skipn; lia).
    cbv zeta. now rewrite window_at_skipn by lia.
  - rewrite !nth_overflow
      by (rewrite length_rolling_flags, ?length_skipn; lia).
    reflexivity.
Qed.

(** ** Equal values round alike *)




Lemma equal_sym (u v : value) : Numpy.equal u v = Numpy.equal v u.
Proof.
  destruct u, v; simpl; try reflexivity.
  apply eq_true_iff_eq. rewrite !Qeq_bool_iff. split; intros H; now symmetry.
Qed.

Lemma equal_not_inf (v : value) (c : Q) :
  Numpy.equal v (Fin c) = true -> isinf v = false.
Proof. now destruct v. Qed.

(** ** A constant series *)

Lemma close_to_equal (rtol atol c : Q) (v a : value) :
  (0 <= rtol)%Q -> (0 <= atol)%Q ->
  Numpy.equal v (Fin c) = true -> Numpy.equal a (Fin c) = true ->
  close_to rtol atol v a.
Proof.
  intros Hr Ha. destruct v as [p| | |], a as [q| | |]; simpl; try discriminate.
  rewrite !Qeq_bool_iff. intros Hp Hq.
  assert (H0 : (p - q == 0)%Q) by lra.
  rewrite (Qabs_wd _ _ H0). change (Qabs 0) with 0%Q.
  pose proof (Qmult_le_0_compat rtol (Qabs q) Hr (Qabs_nonneg q)). lra.
Qed.

Lemma nth_constant (c : Q) (xs : list value) (j : nat) :
  forallb (fun v => Numpy.equal v (Fin c)) xs = true ->
  j < length xs -> Numpy.equal (nth j xs NaN) (Fin c) = true.
Proof.
  intros Hall Hj. rewrite forallb_forall in Hall. apply Hall.
  now apply nth_In.
Qed.

(** X6.  On a series whose readings all equal the number [c], with
    non-negative tolerances, [stale_values_diff] sets exactly the positions
    from [window - 1] on. *)
Theorem stale_values_diff_constant {L} (x : Series L value) (c : Q)
    (window : Z) (rtol atol : Q) :
  (2 <= window)%Z -> (0 <= rtol)%Q -> (0 <= atol)%Q ->
  forallb (fun v => Numpy.equal v (Fin c)) (values x) = true ->
  exists flags,
    stale_values_diff x window rtol atol = Ok flags /\
    forall i, i < length (values x) ->
      nth i (values flags) false = true <-> (window - 1 <= Z.of_nat i)%Z.
Proof.
  intros Hw Hr Ha Hall. eexists.
  split; [now apply stale_values_diff_flags|].
  cbn [values]. intros i Hi.
  rewrite nth_stale_flags by (try assumption; lia). split.
  - intros [Hle _]. lia.
  - intros Hle. split; [lia|]. intros j Hj.
    apply close_to_equal with c; try assumption;
      apply nth_constant; try assumption; lia.
Qed.

(** ** The flags of [stale_values_round] from the rounded differences *)

Section RoundFlags.
Variable decimals : Z.
Variable xs : list value.

Let ds := diff_values (rounded decimals xs).

Lemma length_rounded_diff : length ds = length xs.
Proof. unfold ds, rounded. now rewrite length_diff_values, length_map. Qed.

Lemma nth_rounded_diff (j : nat) :
  0 < j < length xs ->
  nth j ds NaN
  = Numpy.subtract (Numpy.around (nth j xs NaN) decimals)
                   (Numpy.around (nth (j - 1) xs NaN) decimals).
Proof.
  intros Hj. unfold ds.
  rewrite nth_diff_values by (unfold rounded; now rewrite length_map).
  now rewrite !nth_rounded.
Qed.

(** An endpoint closes [window - 1] zero differences. *)
Lemma nth_endpoint_zero (window : Z) (e : nat) :
  (2 <= window)%Z -> e < length xs ->
  nth e (endpoint_values decimals window xs) false = true <->
  Z.to_nat (window - 1) <= e /\
  forall j, e - Z.to_nat (window - 1) < j <= e ->
    is_zero (nth j ds NaN) = true.
Proof.
  intros Hw He. unfold endpoint_values. fold ds.
  set (w' := Z.to_nat (window - 1)).
  pose proof length_rounded_diff as Hlen.
  assert (Heds : e < length ds) by lia.
  rewrite nth_rolling_flags by assumption.
  unfold all_zero. rewrite Z.eqb_eq.
  pose proof (length_window_at w' ds Heds) as Hlw.
  split.
  - intros [Hle [_ Hz]].
    assert (Hall : forallb is_zero (window_at w' ds e) = true)
      by (apply filter_length_forallb; lia).
    rewrite forallb_forall in Hall.
    assert (Hzero : forall j, S e - w' <= j <= e ->
                      is_zero (nth j ds NaN) = true).
    { intros j Hj. apply Hall. apply (In_window_at w' ds NaN _ Heds).
      now exists j. }
    assert (Hlt : w' <= e).
    { destruct (Nat.eq_dec w' (S e)) as [Heq|]; [|lia].
      specialize (Hzero 0 ltac:(lia)). unfold ds in Hzero.
      rewrite nth_diff_values_0 in Hzero. discriminate. }
    split; [assumption|]. intros j Hj. apply Hzero. lia.
  - intros [Hle Hzero]. split; [lia|]. split.
    + intros j Hj. apply is_zero_finite. apply Hzero. lia.
    + assert (Hall : forallb is_zero (window_at w' ds e) = true).
      { apply forallb_forall. intros v Hv.
        apply (In_window_at w' ds NaN _ Heds) in Hv.
        destruct Hv as [j [Hj Hv]]. subst v. apply Hzero. lia. }
      rewrite (forallb_filter_id _ _ Hall). lia.
Qed.

(** A position is flagged when it lies among [window] positions whose
    rounded values have zero differences from one to the next. *)
Lemma nth_round_flags_zero {L} (idx : list L) (window : Z) (i : nat) :
  (2 <= window)%Z -> i < length xs ->
  nth i (values (spread (Z.to_nat window)
           (mkSeries idx (endpoint_values decimals window xs))
           (mkSeries idx (endpoint_values decimals window xs)))) false = true
  <->
  exists e, i <= e < length xs /\ e - Z.to_nat (window - 1) <= i /\
            Z.to_nat (window - 1) <= e /\
            forall j, e - Z.to_nat (window - 1) < j <= e ->
              is_zero (nth j ds NaN) = true.
Proof.
  intros Hw Hi.
  rewrite nth_spread
    by (cbn [values]; rewrite ?length_endpoint_values; auto).
  cbn [values]. split.
  - intros H.
    assert (Hk : exists k, k < Z.to_nat window /\
               nth (i + k) (endpoint_values decimals window xs) false = true).
    { destruct H as [H|H]; [|exact H].
      exists 0. split; [lia | now rewrite Nat.add_0_r]. }
    destruct Hk as [k [Hk He]].
    assert (Hlt : i + k < length xs).
    { destruct (Nat.lt_ge_cases (i + k) (length xs)) as [|Hge]; [assumption|].
      rewrite nth_overflow in He by now rewrite length_endpoint_values.
      discriminate. }
    apply nth_endpoint_zero in He; [|assumption|assumption].
    destruct He as [Hle Hz].
    exists (i + k). repeat split; try lia. exact Hz.
  - intros [e [Hie [Hei [Hle Hz]]]]. right.
    exists (e - i). split; [lia|].
    replace (i + (e - i)) with e by lia.
    apply nth_endpoint_zero; [assumption | lia |].
    split; assumption.
Qed.


End RoundFlags.

Lemma is_zero_subtract_equal (u v : value) :
  is_zero (Numpy.subtract v u) = true -> Numpy.equal v u = true.
Proof.
  destruct u as [p| | |], v as [q| | |]; simpl; try discriminate.
  rewrite !Qeq_bool_iff. intros H. lra.
Qed.


(** X8.  The flags of [stale_values_round] come in stretches: a position
    that is set lies among [window] consecutive positions of the series
    that are all set. *)
Theorem stale_values_round_stretches {L} (x : Series L value)
    (decimals window : Z) :
  (2 <= window)%Z ->
  exists flags,
    stale_values_round x decimals window = Ok flags /\
    forall i, nth i (values flags) false = true ->
      exists s, s <= i < s + Z.to_nat window /\
                s + Z.to_nat window <= length (values x) /\
                forall j, s <= j < s + Z.to_nat window ->
                  nth j (values flags) false = true.
Proof.
  intros Hw. eexists.
  split; [apply stale_values_round_flags; lia|].
  intros i Ht.
  assert (Hi : i < length (values x)).
  { destruct (Nat.lt_ge_cases i (length (values x))) as [|Hge];
      [assumption|].
    rewrite nth_overflow in Ht; [discriminate|].
    rewrite length_spread by reflexivity.
    cbn [values]. now rewrite length_endpoint_values. }
  apply nth_round_flags_zero in Ht; [|assumption|assumption].
  destruct Ht as [e [He [Hei [Hle Hz]]]].
  exists (e - Z.to_nat (window - 1)).
  split; [lia|]. split; [lia|].
  intros j Hj. apply nth_round_flags_zero; [assumption | lia |].
  exists e. split; [lia|]. split; [lia|]. split; assumption.
Qed.

(** X9.  A larger window flags less: a position set by
    [stale_values_round] with [window'] is set with every smaller window
    of at least 2. *)
Theorem stale_values_round_window_antitone {L} (x : Series L value)
    (decimals window window' : Z) :
  (2 <= window)%Z -> (window <= window')%Z ->
  exists flags flags',
    stale_values_round x decimals window = Ok flags /\
    stale_values_round x decimals window' = Ok flags' /\
    forall i, nth i (values flags') false = true ->
              nth i (values flags) false = true.
Proof.
  intros Hw Hww. do 2 eexists.
  split; [apply stale_values_round_flags; lia|].
  split; [apply stale_values_round_flags; lia|].
  intros i Ht.
  assert (Hi : i < length (values x)).
  { destruct (Nat.lt_ge_cases i (length (values x))) as [|Hge];
      [assumption|].
    rewrite nth_overflow in Ht; [discriminate|].
    rewrite length_spread by reflexivity.
    cbn [values]. now rewrite length_endpoint_values. }
  apply nth_round_flags_zero in Ht; [|lia|assumption].
  destruct Ht as [e [He [Hei [Hle Hz]]]].
  apply nth_round_flags_zero; [assumption|assumption|].
  exists (Nat.max i (e - Z.to_nat (window' - 1) + Z.to_nat (window - 1))).
  split; [lia|]. split; [lia|]. split; [lia|].
  intros j Hj. apply Hz. lia.
Qed.

Lemma close_to_zero_equal (v a : value) :
  close_to 0 0 v a -> Numpy.equal v a = true.
Proof.
  destruct v as [p| | |], a as [q| | |]; cbn [close_to Numpy.equal];
    try contradiction.
  intros H. apply Qeq_bool_iff.
  apply Qabs_Qle_condition in H. lra.
Qed.


(** ** Series without stale readings *)

(** X11.  When no reading is within tolerance of the reading before it,
    [stale_values_diff] sets no position. *)
Theorem stale_values_diff_no_stale {L} (x : Series L value) (window : Z)
    (rtol atol : Q) :
  (2 <= window)%Z ->
  forallb (fun j => negb (Numpy.isclose (nth (S j) (values x) NaN)
                            (nth j (values x) NaN) rtol atol))
          (seq 0 (length (values x) - 1)) = true ->
  exists flags,
    stale_values_diff x window rtol atol = Ok flags /\
    forall i, nth i (values flags) false = false.
Proof.
  intros Hw Hall. eexists. split; [now apply stale_values_diff_flags|].
  cbn [values]. intros i. apply not_true_is_false. intros Ht.
  assert (Hi : i < length (values x)).
  { destruct (Nat.lt_ge_cases i (length (values x))) as [|Hge];
      [assumption|].
    rewrite nth_overflow in Ht by now rewrite length_rolling_flags.
    discriminate. }
  apply nth_stale_flags in Ht; [|assumption|lia].
  destruct Ht as [Hle Hc].
  set (s := S i - Z.to_nat window) in *.
  specialize (Hc (S s) ltac:(lia)).
  pose proof (close_to_finite _ _ _ _ Hc) as [Hf1 Hf2].
  apply isclose_close_to in Hc; [|assumption|assumption].
  rewrite forallb_forall in Hall.
  specialize (Hall s ltac:(apply in_seq; lia)). cbv beta in Hall.
  rewrite Hc in Hall. discriminate.
Qed.

(** X12.  When no reading equals, after rounding, the reading before it,
    [stale_values_round] sets no position. *)
Theorem stale_values_round_no_stale {L} (x : Series L value)
    (decimals window : Z) :
  (2 <= window)%Z ->
  forallb (fun j => negb (Numpy.equal
                            (Numpy.around (nth (S j) (values x) NaN) decimals)
                            (Numpy.around (nth j (values x) NaN) decimals)))
          (seq 0 (length (values x) - 1)) = true ->
  exists flags,
    stale_values_round x decimals window = Ok flags /\
    forall i, nth i (values flags) false = false.
Proof.
  intros Hw Hall. eexists. split; [apply stale_values_round_flags; lia|].
  intros i. apply not_true_is_false. intros Ht.
  assert (Hi : i < length (values x)).
  { destruct (Nat.lt_ge_cases i (length (values x))) as [|Hge];
      [assumption|].
    rewrite nth_overflow in Ht; [discriminate|].
    rewrite length_spread by reflexivity.
    cbn [values]. now rewrite length_endpoint_values. }
  apply nth_round_flags_zero in Ht; [|assumption|assumption].
  destruct Ht as [e [He [Hei [Hle Hz]]]].
  specialize (Hz e ltac:(lia)).
  rewrite nth_rounded_diff in Hz by lia.
  apply is_zero_subtract_equal in Hz.
  rewrite forallb_forall in Hall.
  specialize (Hall (e - 1) ltac:(apply in_seq; lia)). cbv beta in Hall.
  replace (S (e - 1)) with e in Hall by lia.
  rewrite Hz in Hall. discriminate.
Qed.

(** X13.  [stale_values_round] has one error path: with a window of 0 or
    less the rolling window size [window - 1] is negative, pandas rejects
    it with a ValueError and no mask is returned. *)
Theorem stale_values_round_rejects_window {L} (x : Series L value)
    (decimals window : Z) :
  (window <= 0)%Z ->
  exists msg, stale_values_round x decimals window = Raise (ValueError msg).
Proof.
  intros Hw. unfold stale_values_round, rolling.
  destruct (Z.ltb_spec (window - 1) 0) as [_|]; [|lia].
  eexists. reflexivity.
Qed.

(** ** Sign of the readings *)

Lemma isclose_negative (a b : value) (rtol atol : Q) :
  Numpy.isclose (negative a) (negative b) rtol atol
  = Numpy.isclose a b rtol atol.
Proof.
  destruct a as [p| | |], b as [q| | |]; try reflexivity.
  cbn [negative Numpy.isclose]. unfold Numpy.within_tol.
  apply eq_true_iff_eq. rewrite !Qle_bool_iff.
  assert (H1 : (Qabs (- p - - q) == Qabs (p - q))%Q).
  { rewrite <- (Qabs_opp (p - q)). apply Qabs_wd. ring. }
  rewrite H1, (Qabs_opp q). reflexivity.
Qed.

Lemma window_at_map {A B} (f : A -> B) (w : nat) (xs : list A) (i : nat) :
  window_at w (map f xs) i = map f (window_at w xs i).
Proof. unfold window_at. now rewrite skipn_map, firstn_map. Qed.

Lemma count_valid_negative (win : list value) :
  count_valid (map negative win) = count_valid win.
Proof.
  unfold count_valid. induction win as [|v win IH]; [reflexivity|].
  destruct v; simpl; simpl in IH; now rewrite ?IH.
Qed.

Lemma close_to_first_negative (rtol atol : Q) (win : list value) :
  close_to_first rtol atol (map negative win) = close_to_first rtol atol win.
Proof.
  unfold close_to_first, Numpy.allclose.
  replace (hd NaN (map negative win)) with (negative (hd NaN win))
    by now destruct win.
  generalize (hd NaN win) as a. intros a.
  induction win as [|v win IH]; [reflexivity|].
  cbn [map forallb]. now rewrite isclose_negative, IH.
Qed.

(** X14.  [stale_values_diff] does not depend on the sign of the
    readings: on [-x] it returns the mask it returns on [x]. *)
Theorem stale_values_diff_negated {L} (x : Series L value) (window : Z)
    (rtol atol : Q) :
  stale_values_diff (negated x) window rtol atol
  = stale_values_diff x window rtol atol.
Proof.
  destruct (Z.lt_ge_cases window 2) as [Hlt|Hge].
  - unfold stale_values_diff.
    destruct (Z.ltb_spec window 2) as [_|]; [reflexivity | lia].
  - rewrite !stale_values_diff_flags by lia.
    cbn [negated on_values index values]. f_equal. f_equal.
    unfold rolling_flags, tabulate. rewrite length_map.
    apply map_ext. intros i. cbv zeta.
    now rewrite window_at_map, count_valid_negative, close_to_first_negative.
Qed.

(** ** A straight line *)

Lemma nth_map_Fin (qs : list Q) (j : nat) :
  j < length qs -> nth j (map Fin qs) NaN = Fin (nth j qs 0%Q).
Proof.
  intros Hj. rewrite (nth_indep _ NaN (Fin 0%Q)) by now rewrite length_map.
  apply map_nth.
Qed.

(** X15.  On a series of numbers with a constant step from each reading to
    the next, with non-negative tolerances, [interpolation_diff] sets
    exactly the positions from [window - 1] on. *)
Theorem interpolation_diff_linear {L} (idx : list L) (qs : list Q)
    (step : Q) (window : Z) (rtol atol : Q) :
  (3 <= window)%Z -> (0 <= rtol)%Q -> (0 <= atol)%Q ->
  forallb (fun k => Qeq_bool (nth (S k) qs 0 - nth k qs 0)%Q step)
          (seq 0 (length qs - 1)) = true ->
  exists flags,
    interpolation_diff (mkSeries idx (map Fin qs)) window rtol atol
    = Ok flags /\
    forall i, i < length qs ->
      nth i (values flags) false = true <-> (window - 1 <= Z.of_nat i)%Z.
Proof.
  intros Hw Hr Ha Hstep. eexists.
  split; [now apply interpolation_diff_flags|].
  cbn [values]. intros i Hi.
  rewrite nth_interpolation_flags by (rewrite ?length_map; try assumption; lia).
  rewrite forallb_forall in Hstep.
  assert (Hd : forall j, 0 < j < length qs ->
             Numpy.equal
               (Numpy.subtract (nth j (map Fin qs) NaN)
                               (nth (j - 1) (map Fin qs) NaN))
               (Fin step) = true).
  { intros j Hj. rewrite !nth_map_Fin by lia. cbn [Numpy.subtract Numpy.equal].
    specialize (Hstep (j - 1) ltac:(apply in_seq; lia)). cbv beta in Hstep.
    now replace (S (j - 1)) with j in Hstep by lia. }
  split.
  - intros [Hle _]. lia.
  - intros Hle. split; [lia|]. intros j Hj.
    apply close_to_equal with step; try assumption.
    + apply Hd. lia.
    + specialize (Hd (S (i - Z.to_nat (window - 1))) ltac:(lia)).
      now rewrite Nat.sub_succ, Nat.sub_0_r in Hd.
Qed.

(** ** Readings that agree after rounding, and stuck readings as a line *)

(** X16.  When all readings round to the same number [c],
    [stale_values_round] sets every position if the series has at least
    [window] readings and none otherwise, however the readings differ
    below the rounding. *)
Theorem stale_values_round_noise {L} (x : Series L value) (c : Q)
    (decimals window : Z) :
  (2 <= window)%Z ->
  forallb (fun v => Numpy.equal (Numpy.around v decimals) (Fin c))
          (values x) = true ->
  exists flags,
    stale_values_round x decimals window = Ok flags /\
    forall i, i < length (values x) ->
      nth i (values flags) false = true <->
      (window <= Z.of_nat (length (values x)))%Z.
Proof.
  intros Hw Hall. eexists.
  split; [apply stale_values_round_flags; lia|].
  intros i Hi. rewrite nth_round_flags_zero by assumption. split.
  - intros [e [He [_ [Hle _]]]]. lia.
  - intros Hn. exists (Nat.max i (Z.to_nat (window - 1))).
    split; [lia|]. split; [lia|]. split; [lia|].
    intros j Hj. rewrite forallb_forall in Hall.
    assert (Hj1 : Numpy.equal
                    (Numpy.around (nth (j - 1) (values x) NaN) decimals)
                    (Fin c) = true)
      by (apply Hall, nth_In; lia).
    assert (Hj2 : Numpy.equal (Numpy.around (nth j (values x) NaN) decimals)
                    (Fin c) = true)
      by (apply Hall, nth_In; lia).
    rewrite nth_rounded_diff by lia.
    rewrite is_zero_subtract by (eapply equal_not_inf; eassumption).
    apply equal_trans with (Fin c); [assumption|].
    now rewrite equal_sym.
Qed.

(** X17.  Stuck readings lie on a line: for a window of at least 3 and
    non-negative tolerances, every position that [stale_values_diff] sets
    with zero tolerances is set by [interpolation_diff]. *)
Theorem stale_values_are_linear {L} (x : Series L value) (window : Z)
    (rtol atol : Q) :
  (3 <= window)%Z -> (0 <= rtol)%Q -> (0 <= atol)%Q ->
  exists stale linear,
    stale_values_diff x window 0 0 = Ok stale /\
    interpolation_diff x window rtol atol = Ok linear /\
    forall i, nth i (values stale) false = true ->
              nth i (values linear) false = true.
Proof.
  intros Hw Hr Ha. do 2 eexists.
  split; [apply stale_values_diff_flags; lia|].
  split; [now apply interpolation_diff_flags|].
  cbn [values]. intros i Ht.
  assert (Hi : i < length (values x)).
  { destruct (Nat.lt_ge_cases i (length (values x))) as [|Hge];
      [assumption|].
    rewrite nth_overflow in Ht by now rewrite length_rolling_flags.
    discriminate. }
  apply nth_stale_flags in Ht; [|assumption|lia].
  destruct Ht as [Hle Hc].
  apply nth_interpolation_flags; [assumption|lia|].
  split; [lia|].
  assert (Hd : forall j, S i - Z.to_nat window < j <= i ->
             Numpy.equal
               (Numpy.subtract (nth j (values x) NaN)
                               (nth (j - 1) (values x) NaN))
               (Fin 0%Q) = true).
  { intros j Hj.
    pose proof (Hc (j - 1) ltac:(lia)) as H1.
    pose proof (Hc j ltac:(lia)) as H2.
    pose proof (close_to_finite _ _ _ _ H1) as [Hf1 _].
    pose proof (close_to_finite _ _ _ _ H2) as [Hf2 _].
    change (is_zero (Numpy.subtract (nth j (values x) NaN)
                       (nth (j - 1) (values x) NaN)) = true).
    rewrite is_zero_subtract
      by (match goal with |- isinf ?v = false => now destruct v end).
    apply equal_trans with (nth (S i - Z.to_nat window) (values x) NaN).
    - now apply close_to_zero_equal.
    - rewrite equal_sym. now apply close_to_zero_equal. }
  intros j Hj. apply close_to_equal with 0%Q; try assumption.
  - apply Hd. lia.
  - specialize (Hd (S (i - Z.to_nat (window - 1))) ltac:(lia)).
    now rewrite Nat.sub_succ, Nat.sub_0_r in Hd.
Qed.

(** ** The further properties at concrete inputs *)

Lemma default_rtol_nonneg : (0 <= default_rtol)%Q.
Proof. unfold Qle. simpl. lia. Defined.

Lemma default_atol_nonneg : (0 <= default_atol)%Q.
Proof. unfold Qle. simpl. lia. Defined.

Lemma default_rtol_le : (default_rtol <= 1 # 100)%Q.
Proof. unfold Qle. simpl. lia. Defined.

Lemma default_atol_le : (default_atol <= default_atol)%Q.
Proof. unfold Qle. simpl. lia. Defined.

Lemma interpolation_diff_spec_witness :
  (3 <= 3)%Z /\
  exists flags,
    interpolation_diff interpolated_data 3 default_rtol default_atol
    = Ok flags /\
    forall i, i < length (values interpolated_data) ->
      nth i (values flags) false = true <->
      (3 - 1 <= Z.of_nat i)%Z /\
      forall j, i + 2 - Z.to_nat 3 <= j <= i ->
        close_to default_rtol default_atol
          (Numpy.subtract (nth j (values interpolated_data) NaN)
                          (nth (j - 1) (values interpolated_data) NaN))
          (Numpy.subtract
             (nth (i + 2 - Z.to_nat 3) (values interpolated_data) NaN)
             (nth (i + 1 - Z.to_nat 3) (values interpolated_data) NaN)).
Proof.
  split; [lia|].
  apply (interpolation_diff_spec interpolated_data (window := 3)
           default_rtol default_atol).
  lia.
Defined.

Lemma interpolation_diff_tolerance_monotone_witness :
  (3 <= 3)%Z /\ (default_rtol <= 1 # 100)%Q /\
  (default_atol <= default_atol)%Q /\
  exists flags flags',
    interpolation_diff interpolated_data 3 default_rtol default_atol
    = Ok flags /\
    interpolation_diff interpolated_data 3 (1 # 100)%Q default_atol
    = Ok flags' /\
    forall i, nth i (values flags) false = true ->
              nth i (values flags') false = true.
Proof.
  split; [lia|]. split; [exact default_rtol_le|].
  split; [exact default_atol_le|].
  apply (interpolation_diff_tolerance_monotone interpolated_data
           (window := 3));
    [lia | exact default_rtol_le | exact default_atol_le].
Defined.

Lemma stale_values_diff_prefix_witness :
  (2 <= 3)%Z /\
  exists flags,
    stale_values_diff stale_data 3 default_rtol default_atol = Ok flags /\
    stale_values_diff (head_of 8 stale_data) 3 default_rtol default_atol
    = Ok (head_of 8 flags).
Proof.
  split; [lia|].
  apply (stale_values_diff_prefix stale_data 8 (window := 3)
           default_rtol default_atol).
  lia.
Defined.

Lemma interpolation_diff_prefix_witness :
  (3 <= 3)%Z /\
  exists flags,
    interpolation_diff interpolated_data 3 default_rtol default_atol
    = Ok flags /\
    interpolation_diff (head_of 9 interpolated_data) 3
      default_rtol default_atol
    = Ok (head_of 9 flags).
Proof.
  split; [lia|].
  apply (interpolation_diff_prefix interpolated_data 9 (window := 3)
           default_rtol default_atol).
  lia.
Defined.

Lemma stale_values_diff_suffix_witness :
  (2 <= 3)%Z /\
  exists flags flags',
    stale_values_diff stale_data 3 default_rtol default_atol = Ok flags /\
    stale_values_diff (tail_from 1 stale_data) 3 default_rtol default_atol
    = Ok flags' /\
    index flags' = skipn 1 (index stale_data) /\
    forall i, (3 - 1 <= Z.of_nat i)%Z ->
      nth i (values flags') false = nth (1 + i) (values flags) false.
Proof.
  split; [lia|].
  apply (stale_values_diff_suffix stale_data 1 (window := 3)
           default_rtol default_atol).
  lia.
Defined.

Lemma stale_values_diff_constant_witness :
  (2 <= 3)%Z /\ (0 <= default_rtol)%Q /\ (0 <= default_atol)%Q /\
  forallb (fun v => Numpy.equal v (Fin 1%Q)) (values all_same) = true /\
  exists flags,
    stale_values_diff all_same 3 default_rtol default_atol = Ok flags /\
    forall i, i < length (values all_same) ->
      nth i (values flags) false = true <-> (3 - 1 <= Z.of_nat i)%Z.
Proof.
  split; [lia|]. split; [exact default_rtol_nonneg|].
  split; [exact default_atol_nonneg|]. split; [reflexivity|].
  apply (stale_values_diff_constant all_same 1%Q (window := 3));
    [lia | exact default_rtol_nonneg | exact default_atol_nonneg
     | reflexivity].
Defined.


Lemma stale_values_round_stretches_witness :
  (2 <= 4)%Z /\
  exists flags,
    stale_values_round two_spans 3 4 = Ok flags /\
    forall i, nth i (values flags) false = true ->
      exists s, s <= i < s + Z.to_nat 4 /\
                s + Z.to_nat 4 <= length (values two_spans) /\
                forall j, s <= j < s + Z.to_nat 4 ->
                  nth j (values flags) false = true.
Proof.
  split; [lia|].
  apply (stale_values_round_stretches two_spans 3 (window := 4)). lia.
Defined.

Lemma stale_values_round_window_antitone_witness :
  (2 <= 4)%Z /\ (4 <= 5)%Z /\
  exists flags flags',
    stale_values_round two_spans 3 4 = Ok flags /\
    stale_values_round two_spans 3 5 = Ok flags' /\
    forall i, nth i (values flags') false = true ->
              nth i (values flags) false = true.
Proof.
  split; [lia|]. split; [lia|].
  apply (stale_values_round_window_antitone two_spans 3
           (window := 4) (window' := 5)); lia.
Defined.


Lemma stale_values_diff_no_stale_witness :
  (2 <= 3)%Z /\
  forallb (fun j => negb (Numpy.isclose (nth (S j) (values ramp) NaN)
                            (nth j (values ramp) NaN)
                            default_rtol default_atol))
          (seq 0 (length (values ramp) - 1)) = true /\
  exists flags,
    stale_values_diff ramp 3 default_rtol default_atol = Ok flags /\
    forall i, nth i (values flags) false = false.
Proof.
  split; [lia|]. split; [reflexivity|].
  apply (stale_values_diff_no_stale ramp (window := 3)
           default_rtol default_atol);
    [lia | reflexivity].
Defined.

Lemma stale_values_round_no_stale_witness :
  (2 <= 4)%Z /\
  forallb (fun j => negb (Numpy.equal
                            (Numpy.around (nth (S j) (values ramp) NaN) 3)
                            (Numpy.around (nth j (values ramp) NaN) 3)))
          (seq 0 (length (values ramp) - 1)) = true /\
  exists flags,
    stale_values_round ramp 3 4 = Ok flags /\
    forall i, nth i (values flags) false = false.
Proof.
  split; [lia|]. split; [reflexivity|].
  apply (stale_values_round_no_stale ramp 3 (window := 4));
    [lia | reflexivity].
Defined.

Lemma stale_values_round_rejects_window_witness :
  (0 <= 0)%Z /\
  exists msg, stale_values_round stale_data 3 0 = Raise (ValueError msg).
Proof.
  split; [lia|].
  apply (stale_values_round_rejects_window stale_data 3 (window := 0)). lia.
Defined.

Lemma interpolation_diff_linear_witness :
  (3 <= 3)%Z /\ (0 <= default_rtol)%Q /\ (0 <= default_atol)%Q /\
  forallb (fun k => Qeq_bool (nth (S k) ramp_readings 0
                              - nth k ramp_readings 0)%Q 10)
          (seq 0 (length ramp_readings - 1)) = true /\
  exists flags,
    interpolation_diff (mkSeries (range_index ramp_readings)
                          (map Fin ramp_readings)) 3
      default_rtol default_atol
    = Ok flags /\
    forall i, i < length ramp_readings ->
      nth i (values flags) false = true <-> (3 - 1 <= Z.of_nat i)%Z.
Proof.
  split; [lia|]. split; [exact default_rtol_nonneg|].
  split; [exact default_atol_nonneg|]. split; [reflexivity|].
  apply (interpolation_diff_linear (range_index ramp_readings) ramp_readings
           10%Q (window := 3));
    [lia | exact default_rtol_nonneg | exact default_atol_nonneg
     | reflexivity].
Defined.

Lemma stale_values_round_noise_witness :
  (2 <= 4)%Z /\
  forallb (fun v => Numpy.equal (Numpy.around v 3) (Fin 1.555%Q))
          (values noisy) = true /\
  exists flags,
    stale_values_round noisy 3 4 = Ok flags /\
    forall i, i < length (values noisy) ->
      nth i (values flags) false = true <->
      (4 <= Z.of_nat (length (values noisy)))%Z.
Proof.
  split; [lia|]. split; [reflexivity|].
  apply (stale_values_round_noise noisy 1.555%Q 3 (window := 4));
    [lia | reflexivity].
Defined.

Lemma stale_values_are_linear_witness :
  (3 <= 3)%Z /\ (0 <= default_rtol)%Q /\ (0 <= default_atol)%Q /\
  exists stale linear,
    stale_values_diff two_spans 3 0 0 = Ok stale /\
    interpolation_diff two_spans 3 default_rtol default_atol = Ok linear /\
    forall i, nth i (values stale) false = true ->
              nth i (values linear) false = true.
Proof.
  split; [lia|]. split; [exact default_rtol_nonneg|].
  split; [exact default_atol_nonneg|].
  apply (stale_values_are_linear two_spans (window := 3));
    [lia | exact default_rtol_nonneg | exact default_atol_nonneg].
Defined.

(** ** Runs of infinite readings *)

